(** * FaceTracker: a shallow embedding of [src/components/FaceTracker.tsx]

    The React component is modelled as a state-and-effect machine.

    - The component's [useState] cells and its [useRef] cell form the
      record [World], together with the few pieces of browser state the
      component reads back (the video element's [srcObject], the store
      of [MediaRecorder] objects, the animation-frame handle counter and
      the clock behind [Date.now()]).
    - Every call into the platform (dynamic imports, canvas drawing,
      [requestAnimationFrame], [getUserMedia], [MediaRecorder], the
      console, the download anchor) is recorded, in program order, as an
      [Effect] in the output of the monad [M].
    - What the platform answers (a rejected promise, a thrown exception,
      the list of detected faces) is an explicit argument of the
      function that asks.
    - JavaScript numbers are exact rationals [Q] (integers where the
      code counts: [Z]); [Math.sin], [Math.PI] and [ctx.measureText] are
      parameters of the drawing code. *)

From Stdlib Require Import Ascii.
From stdpp Require Import base option list gmap strings.
From Stdlib Require Import ZArith QArith Qround Qminmax DecimalString Lia Lqa.

Local Open Scope Z_scope.

(** ** JavaScript numbers and strings *)

Module Js.

(** [Math.round x]: the integer nearest to [x], ties towards +infinity. *)
Definition round (x : Q) : Z := Qfloor (x + (1 # 2)).

(** [x % 1] on numbers: the remainder keeps the sign of the dividend,
    that is, [x] minus its truncation towards zero. *)
Definition trunc (x : Q) : Z := if Qle_bool 0 x then Qfloor x else Qceiling x.
Definition mod1 (x : Q) : Q := x - inject_Z (trunc x).

(** [x > y] on numbers. *)
Definition gt (x y : Q) : bool := negb (Qle_bool x y).

(** [Math.min]. *)
Definition min (x y : Q) : Q := if Qle_bool x y then x else y.

(** [`${n}`] for an integer-valued number. *)
Definition string_of_Z (n : Z) : string := NilZero.string_of_int (Z.to_int n).

(** [s.slice(0, n)]. *)
Definition slice0 (n : nat) (s : string) : string := String.substring 0 n s.

(** [s.replace(/c/g, d)] for single characters [c] and [d]. *)
Fixpoint replace_all (c d : Ascii.ascii) (s : string) : string :=
  match s with
  | EmptyString => EmptyString
  | String a s' =>
      String (if Ascii.eqb a c then d else a) (replace_all c d s')
  end.

(** A truthy number: neither [0] nor [NaN] (handles are integers here). *)
Definition truthy (n : Z) : bool := negb (n =? 0).

End Js.

(** ** Data model (the type declarations at the top of the file) *)

Inductive DetectorType := tensorflow | native.

(** [FaceDetection]: the tag and which of the two optional methods the
    object carries. The methods themselves call the platform; what they
    return is an argument of [detectFaces] below. *)
Record FaceDetection := {
  type : DetectorType;
  has_detectFaces : bool;
  has_detect : bool
}.

Record FaceLandmark := { lm_x : Q; lm_y : Q }.

Record DOMRectReadOnly := {
  rect_x : Q; rect_y : Q; rect_width : Q; rect_height : Q
}.

(** [Face]. Every field is optional in the source. [probability] is
    BlazeFace's one-element array (the model is loaded with
    [returnTensors = false]); it is kept as its element [probability[0]]
    followed by the rest of the array, so that the index [0] the code
    reads is always there. *)
Record Face := {
  topLeft : option (Q * Q);
  bottomRight : option (Q * Q);
  probability : option (Q * list Q);
  landmarks : option (list FaceLandmark);
  boundingBox : option DOMRectReadOnly
}.

(** [DetectedFace]: what the native detector yields. *)
Record DetectedFace := {
  df_boundingBox : DOMRectReadOnly;
  df_landmarks : option (list FaceLandmark)
}.

Record DetectionStats := {
  totalDetections : Z;
  avgConfidence : Q
}.

(** ** Recording objects *)

(** A [Blob]: its bytes and its MIME type. *)
Record Blob := {
  blob_data : list Z;
  blob_type : string
}.

Definition blob_size (b : Blob) : Z := Z.of_nat (length (blob_data b)).

(** [new Blob(parts, { type })]: the parts' bytes, in order. *)
Definition new_Blob (parts : list Blob) (ty : string) : Blob :=
  {| blob_data := concat (map blob_data parts); blob_type := ty |}.

Inductive RecordingState := inactive | recording | paused.

(** A [MediaRecorder] together with the [chunks] array its two handlers
    close over. *)
Record Recorder := {
  rec_state : RecordingState;
  chunks : list Blob
}.

(** The anchor element built in [recorder.onstop]. *)
Record Anchor := {
  href : Blob;          (* the blob behind the object URL *)
  download : string
}.

(** ** Canvas operations *)

Inductive Style :=
| Rgba (r g b : Z) (alpha : Q)     (* [`rgba(r, g, b, ${alpha})`] *)
| Hex (code : string)              (* ['#rrggbb'] *)
| TheGradient.                     (* the gradient object just created *)

Inductive CanvasOp :=
| ClearRect (x y w h : Q)
| DrawImage (x y w h : Q)
| SetStrokeStyle (s : Style)
| SetFillStyle (s : Style)
| SetLineWidth (w : Q)
| SetShadowColor (c : string)
| SetShadowBlur (b : Q)
| SetFont (f : string)
| BeginPath
| MoveTo (x y : Q)
| LineTo (x y : Q)
| Stroke
| Arc (x y r a0 a1 : Q)
| Fill
| MeasureText (t : string)
| CreateLinearGradient (x0 y0 x1 y1 : Q)
| AddColorStop (offset : Q) (c : Style)
| FillRect (x y w h : Q)
| FillText (t : string) (x y : Q).

(** ** Effects: the calls into the platform, in program order *)

Inductive Effect :=
| ImportModule (name : string)
| TfReady
| BlazefaceLoad
| NewFaceDetector (maxDetectedFaces : Z) (fastMode : bool)
| ConsoleWarn (msg : string)
| ConsoleError (msg : string)
| RequestAnimationFrame (handle : Z)
| CancelAnimationFrame (handle : Z)
| GetContext2d
| EstimateFaces
| NativeDetect
| Draw (op : CanvasOp)
| GetUserMedia
| AddEventListener (event : string)
| VideoPlay
| StopTrack (stream : nat)
| CaptureStream (fps : Z)
| NewMediaRecorder (mimeType : string) (videoBitsPerSecond : Z)
| RecorderStart (id : nat) (timeslice : Z)
| RecorderStop (id : nat)
| CreateObjectURL (b : Blob)
| AppendChild (a : Anchor)
| AnchorClick (a : Anchor)
| RemoveChild (a : Anchor)
| RevokeObjectURL (b : Blob).

(** ** The world: component state, refs and the browser state read back *)

Record World := {
  (* useState *)
  isLoading : bool;
  error : string;
  faceDetector : option FaceDetection;
  isRecording : bool;
  mediaRecorder : option nat;           (* a reference into [recorders] *)
  faceCount : Z;
  detectionStats : DetectionStats;
  (* useRef *)
  animationFrameRef : Z;
  (* browser *)
  rafCounter : Z;                       (* last animation-frame handle *)
  srcObject : option nat;               (* [video.srcObject], a stream *)
  recorders : gmap nat Recorder;        (* the MediaRecorder objects *)
  clock : nat -> Z                      (* coming [Date.now()] readings *)
}.

Definition setIsLoading (v : bool) (w : World) : World :=
  {| isLoading := v; error := error w; faceDetector := faceDetector w;
     isRecording := isRecording w; mediaRecorder := mediaRecorder w;
     faceCount := faceCount w; detectionStats := detectionStats w;
     animationFrameRef := animationFrameRef w; rafCounter := rafCounter w;
     srcObject := srcObject w; recorders := recorders w; clock := clock w |}.

Definition setError (v : string) (w : World) : World :=
  {| isLoading := isLoading w; error := v; faceDetector := faceDetector w;
     isRecording := isRecording w; mediaRecorder := mediaRecorder w;
     faceCount := faceCount w; detectionStats := detectionStats w;
     animationFrameRef := animationFrameRef w; rafCounter := rafCounter w;
     srcObject := srcObject w; recorders := recorders w; clock := clock w |}.

Definition setFaceDetector (v : option FaceDetection) (w : World) : World :=
  {| isLoading := isLoading w; error := error w; faceDetector := v;
     isRecording := isRecording w; mediaRecorder := mediaRecorder w;
     faceCount := faceCount w; detectionStats := detectionStats w;
     animationFrameRef := animationFrameRef w; rafCounter := rafCounter w;
     srcObject := srcObject w; recorders := recorders w; clock := clock w |}.

Definition setIsRecording (v : bool) (w : World) : World :=
  {| isLoading := isLoading w; error := error w; faceDetector := faceDetector w;
     isRecording := v; mediaRecorder := mediaRecorder w;
     faceCount := faceCount w; detectionStats := detectionStats w;
     animationFrameRef := animationFrameRef w; rafCounter := rafCounter w;
     srcObject := srcObject w; recorders := recorders w; clock := clock w |}.

Definition setMediaRecorder (v : option nat) (w : World) : World :=
  {| isLoading := isLoading w; error := error w; faceDetector := faceDetector w;
     isRecording := isRecording w; mediaRecorder := v;
     faceCount := faceCount w; detectionStats := detectionStats w;
     animationFrameRef := animationFrameRef w; rafCounter := rafCounter w;
     srcObject := srcObject w; recorders := recorders w; clock := clock w |}.

Definition setFaceCount (v : Z) (w : World) : World :=
  {| isLoading := isLoading w; error := error w; faceDetector := faceDetector w;
     isRecording := isRecording w; mediaRecorder := mediaRecorder w;
     faceCount := v; detectionStats := detectionStats w;
     animationFrameRef := animationFrameRef w; rafCounter := rafCounter w;
     srcObject := srcObject w; recorders := recorders w; clock := clock w |}.

(** [setDetectionStats(prev => f prev)]. *)
Definition setDetectionStats (f : DetectionStats -> DetectionStats)
  (w : World) : World :=
  {| isLoading := isLoading w; error := error w; faceDetector := faceDetector w;
     isRecording := isRecording w; mediaRecorder := mediaRecorder w;
     faceCount := faceCount w; detectionStats := f (detectionStats w);
     animationFrameRef := animationFrameRef w; rafCounter := rafCounter w;
     srcObject := srcObject w; recorders := recorders w; clock := clock w |}.

Definition setAnimationFrameRef (v : Z) (w : World) : World :=
  {| isLoading := isLoading w; error := error w; faceDetector := faceDetector w;
     isRecording := isRecording w; mediaRecorder := mediaRecorder w;
     faceCount := faceCount w; detectionStats := detectionStats w;
     animationFrameRef := v; rafCounter := rafCounter w;
     srcObject := srcObject w; recorders := recorders w; clock := clock w |}.

Definition setRafCounter (v : Z) (w : World) : World :=
  {| isLoading := isLoading w; error := error w; faceDetector := faceDetector w;
     isRecording := isRecording w; mediaRecorder := mediaRecorder w;
     faceCount := faceCount w; detectionStats := detectionStats w;
     animationFrameRef := animationFrameRef w; rafCounter := v;
     srcObject := srcObject w; recorders := recorders w; clock := clock w |}.

Definition setSrcObject (v : option nat) (w : World) : World :=
  {| isLoading := isLoading w; error := error w; faceDetector := faceDetector w;
     isRecording := isRecording w; mediaRecorder := mediaRecorder w;
     faceCount := faceCount w; detectionStats := detectionStats w;
     animationFrameRef := animationFrameRef w; rafCounter := rafCounter w;
     srcObject := v; recorders := recorders w; clock := clock w |}.

Definition setRecorders (v : gmap nat Recorder) (w : World) : World :=
  {| isLoading := isLoading w; error := error w; faceDetector := faceDetector w;
     isRecording := isRecording w; mediaRecorder := mediaRecorder w;
     faceCount := faceCount w; detectionStats := detectionStats w;
     animationFrameRef := animationFrameRef w; rafCounter := rafCounter w;
     srcObject := srcObject w; recorders := v; clock := clock w |}.

Definition setClock (v : nat -> Z) (w : World) : World :=
  {| isLoading := isLoading w; error := error w; faceDetector := faceDetector w;
     isRecording := isRecording w; mediaRecorder := mediaRecorder w;
     faceCount := faceCount w; detectionStats := detectionStats w;
     animationFrameRef := animationFrameRef w; rafCounter := rafCounter w;
     srcObject := srcObject w; recorders := recorders w; clock := v |}.

(** The component as mounted: the [useState] and [useRef] initial values,
    over a browser that has handed out no handle and holds no recorder. *)
Definition initialWorld (clk : nat -> Z) : World :=
  {| isLoading := true; error := EmptyString; faceDetector := None;
     isRecording := false; mediaRecorder := None;
     faceCount := 0;
     detectionStats := {| totalDetections := 0; avgConfidence := 0%Q |};
     animationFrameRef := 0; rafCounter := 0;
     srcObject := None; recorders := ∅; clock := clk |}.

(** ** The monad: state passing over [World], effects written in order *)

Definition M (A : Type) : Type := World -> A * World * list Effect.

Definition ret {A} (a : A) : M A := fun w => (a, w, []).

Definition bind {A B} (m : M A) (k : A -> M B) : M B :=
  fun w =>
    let '(a, w1, e1) := m w in
    let '(b, w2, e2) := k a w1 in
    (b, w2, e1 ++ e2).

Declare Scope fx_scope.
Delimit Scope fx_scope with fx.
Notation "x <- m ;; k" := (bind m (fun x => k))
  (at level 100, m at next level, k at level 200, right associativity) : fx_scope.
Notation "m ;; k" := (bind m (fun _ => k))
  (at level 100, k at level 200, right associativity) : fx_scope.
Local Open Scope fx_scope.

Definition modify (f : World -> World) : M unit := fun w => (tt, f w, []).
Definition gets {A} (f : World -> A) : M A := fun w => (f w, w, []).
Definition emit (e : Effect) : M unit := fun w => (tt, w, [e]).

Definition result {A} (r : A * World * list Effect) : A := fst (fst r).
Definition world {A} (r : A * World * list Effect) : World := snd (fst r).
Definition effects {A} (r : A * World * list Effect) : list Effect := snd r.

(** [Date.now()]: the next reading of the clock. *)
Definition Date_now : M Z :=
  fun w => (clock w 0%nat, setClock (fun n => clock w (S n)) w, []).

(** [requestAnimationFrame(cb)]: the next handle (handles count from 1). *)
Definition requestAnimationFrame : M Z :=
  fun w =>
    let h := rafCounter w + 1 in
    (h, setRafCounter h w, [RequestAnimationFrame h]).

(** ** Detector bootstrap (lines 62-128) *)

(** How far the [try] block of [initializeTensorFlowDetection] gets. *)
Inductive TfOutcome :=
| TfImportFails          (* [import('@tensorflow/tfjs')] rejects *)
| BlazefaceImportFails   (* [import('@tensorflow-models/blazeface')] rejects *)
| TfReadyFails           (* [tf.ready()] rejects *)
| ModelLoadFails         (* [blazeface.load()] rejects *)
| TfLoaded.

(** What [window.FaceDetector] is. *)
Inductive NativeOutcome :=
| NoFaceDetector         (* [window.FaceDetector] is undefined *)
| ConstructorThrows      (* [new window.FaceDetector(...)] throws *)
| NativeConstructed.

Definition tf_warning : string := "TensorFlow.js initialization failed:".
Definition native_warning : string := "Native Face Detection not supported:".
Definition no_detector_message : string :=
  "Face detection not available in this browser. Please use Chrome/Edge for best results.".

Definition tensorflow_detector : FaceDetection :=
  {| type := tensorflow; has_detectFaces := true; has_detect := false |}.
Definition native_detector : FaceDetection :=
  {| type := native; has_detectFaces := false; has_detect := true |}.

Definition initializeTensorFlowDetection (o : TfOutcome) : M bool :=
  emit (ImportModule "@tensorflow/tfjs") ;;
  match o with
  | TfImportFails => emit (ConsoleWarn tf_warning) ;; ret false
  | _ =>
    emit (ImportModule "@tensorflow-models/blazeface") ;;
    match o with
    | BlazefaceImportFails => emit (ConsoleWarn tf_warning) ;; ret false
    | _ =>
      emit TfReady ;;
      match o with
      | TfReadyFails => emit (ConsoleWarn tf_warning) ;; ret false
      | _ =>
        emit BlazefaceLoad ;;
        match o with
        | ModelLoadFails => emit (ConsoleWarn tf_warning) ;; ret false
        | _ =>
          modify (setFaceDetector (Some tensorflow_detector)) ;;
          modify (setIsLoading false) ;;
          ret true
        end
      end
    end
  end.

Definition initializeNativeDetection (o : NativeOutcome) : M bool :=
  match o with
  | NoFaceDetector => ret false
  | ConstructorThrows =>
      emit (NewFaceDetector 10 false) ;;
      emit (ConsoleWarn native_warning) ;;
      ret false
  | NativeConstructed =>
      emit (NewFaceDetector 10 false) ;;
      modify (setFaceDetector (Some native_detector)) ;;
      modify (setIsLoading false) ;;
      ret true
  end.

Definition initializeFaceDetection (tf : TfOutcome) (nat_ : NativeOutcome)
  : M unit :=
  modify (setIsLoading true) ;;
  ok_tf <- initializeTensorFlowDetection tf ;;
  if ok_tf then ret tt else
  ok_native <- initializeNativeDetection nat_ ;;
  if ok_native then ret tt else
  modify (setError no_detector_message) ;;
  modify (setIsLoading false).

(** ** Camera acquisition and its cleanup (lines 324-369) *)

(** How far the [try] block of [initializeCamera] gets. *)
Inductive CameraOutcome :=
| GetUserMediaRejects            (* [getUserMedia(constraints)] rejects *)
| PlayRejects (stream : nat)     (* the stream is there, [video.play()] rejects *)
| Playing (stream : nat).

Definition camera_log : string := "Error accessing camera:".
Definition camera_message : string :=
  "Camera access denied or not available. Please grant camera permissions.".

(** [initializeCamera]; [video] and [canvas] say whether the two refs are
    set. The [loadeddata] listener it registers starts the detection loop
    when the browser fires it. *)
Definition initializeCamera (video canvas : bool) (o : CameraOutcome)
  : M unit :=
  loading <- gets isLoading ;;
  detector <- gets faceDetector ;;
  if video && canvas && negb loading && bool_decide (is_Some detector) then
    emit GetUserMedia ;;
    match o with
    | GetUserMediaRejects =>
        emit (ConsoleError camera_log) ;;
        modify (setError camera_message)
    | PlayRejects stream =>
        modify (setSrcObject (Some stream)) ;;
        emit (AddEventListener "loadeddata") ;;
        emit VideoPlay ;;
        emit (ConsoleError camera_log) ;;
        modify (setError camera_message)
    | Playing stream =>
        modify (setSrcObject (Some stream)) ;;
        emit (AddEventListener "loadeddata") ;;
        emit VideoPlay
    end
  else ret tt.

(** The body of the camera effect: it runs [initializeCamera] once the
    detector is there. *)
Definition cameraEffect (video canvas : bool) (o : CameraOutcome) : M unit :=
  loading <- gets isLoading ;;
  detector <- gets faceDetector ;;
  if negb loading && bool_decide (is_Some detector)
  then initializeCamera video canvas o
  else ret tt.

(** The function the camera effect returns: React runs it on teardown. *)
Definition cleanup : M unit :=
  handle <- gets animationFrameRef ;;
  if Js.truthy handle then emit (CancelAnimationFrame handle) else ret tt.

(** ** Recording (lines 372-427) *)

(** How far the [try] block of [startRecording] gets. *)
Inductive RecorderOutcome :=
| MediaRecorderThrows    (* [new MediaRecorder(stream, options)] throws *)
| StartThrows            (* [recorder.start(1000)] throws *)
| Started.

Definition recording_log : string := "Recording error:".
Definition recording_message : string :=
  "Recording not supported in this browser".

(** A recorder object is created: a key the store does not hold yet. *)
Definition new_MediaRecorder : M nat :=
  fun w =>
    let id := fresh (dom (recorders w)) in
    (id,
     setRecorders (<[id := {| rec_state := inactive; chunks := [] |}]> (recorders w)) w,
     []).

Definition set_rec_state (id : nat) (s : RecordingState) (w : World) : World :=
  setRecorders
    (alter (fun r => {| rec_state := s; chunks := chunks r |}) id (recorders w)) w.

(** [chunks.push(data)] on the array of recorder [id]. *)
Definition push_chunk (id : nat) (data : Blob) (w : World) : World :=
  setRecorders
    (alter (fun r => {| rec_state := rec_state r; chunks := chunks r ++ [data] |})
       id (recorders w)) w.

Definition startRecording (canvas : bool) (o : RecorderOutcome) : M unit :=
  if negb canvas then ret tt else
  emit (CaptureStream 60) ;;
  emit (NewMediaRecorder "video/webm;codecs=vp9" 2500000) ;;
  match o with
  | MediaRecorderThrows =>
      emit (ConsoleError recording_log) ;;
      modify (setError recording_message)
  | _ =>
      id <- new_MediaRecorder ;;
      emit (RecorderStart id 1000) ;;
      match o with
      | StartThrows =>
          emit (ConsoleError recording_log) ;;
          modify (setError recording_message)
      | _ =>
          modify (set_rec_state id recording) ;;
          modify (setMediaRecorder (Some id)) ;;
          modify (setIsRecording true)
      end
  end.

(** [recorder.ondataavailable], for the recorder [id] it was set on. *)
Definition ondataavailable (id : nat) (data : Blob) : M unit :=
  if 0 <? blob_size data then modify (push_chunk id data) else ret tt.

(** The name of the downloaded file, from [new Date().toISOString()]. *)
Definition download_name (iso : string) : string :=
  "face-tracking-" +:+ Js.replace_all ":"%char "-"%char (Js.slice0 19 iso) +:+ ".webm".

(** [recorder.onstop], for the recorder [id] it was set on.
    [toISOString] is the platform's rendering of a clock reading. *)
Definition onstop (toISOString : Z -> string) (id : nat) : M unit :=
  r <- gets (fun w => recorders w !! id) ;;
  match r with
  | None => ret tt     (* no such recorder: no handler to run *)
  | Some r =>
      let blob := new_Blob (chunks r) "video/webm" in
      emit (CreateObjectURL blob) ;;
      now <- Date_now ;;
      let a := {| href := blob; download := download_name (toISOString now) |} in
      emit (AppendChild a) ;;
      emit (AnchorClick a) ;;
      emit (RemoveChild a) ;;
      emit (RevokeObjectURL blob)
  end.

(** What the browser delivers to a recorder. *)
Inductive RecorderEvent :=
| DataAvailable (data : Blob)
| Stop.

Definition deliver (toISOString : Z -> string) (id : nat) (ev : RecorderEvent)
  : M unit :=
  match ev with
  | DataAvailable data => ondataavailable id data
  | Stop => onstop toISOString id
  end.

Fixpoint deliver_all (toISOString : Z -> string) (id : nat)
  (evs : list RecorderEvent) : M unit :=
  match evs with
  | [] => ret tt
  | ev :: evs' => deliver toISOString id ev ;; deliver_all toISOString id evs'
  end.

(** [mediaRecorder.state] of the object a reference points to. *)
Definition recorder_state (id : nat) (w : World) : option RecordingState :=
  rec_state <$> recorders w !! id.

Definition stopRecording : M unit :=
  mr <- gets mediaRecorder ;;
  match mr with
  | None => ret tt
  | Some id =>
      st <- gets (recorder_state id) ;;
      match st with
      | Some recording | Some paused =>
          emit (RecorderStop id) ;;
          modify (set_rec_state id inactive) ;;
          modify (setMediaRecorder None) ;;
          modify (setIsRecording false)
      | Some inactive | None => ret tt
      end
  end.

Definition resetStats : M unit :=
  modify (setDetectionStats
            (fun _ => {| totalDetections := 0; avgConfidence := 0%Q |})).

(** ** The detection loop and the drawing routines (lines 131-321) *)

(** The video element, as far as the loop reads it. *)
Record Video := { readyState : Z }.

(** The canvas element: whether [getContext('2d')] yields a context, and
    its size. *)
Record Canvas := {
  context2d : bool;
  canvas_width : Q;
  canvas_height : Q
}.

(** What one animation-frame callback finds: the two refs, and what the
    detector's promise settles to ([None]: it rejects). *)
Record FrameInput := {
  video : option Video;
  canvas : option Canvas;
  estimateFaces : option (list Face);        (* [model.estimateFaces(video, false)] *)
  detect : option (list DetectedFace)        (* [detector.detect(video)] *)
}.

(** The two bytes sequences below are literals of the source. *)
Definition double_quote : string := String (ascii_of_nat 34) EmptyString.
Definition label_font : string :=
  "bold 14px " +:+ double_quote +:+ "Courier New" +:+ double_quote +:+ ", monospace".
Definition label_separator : string :=
  String.string_of_list_ascii
    (map ascii_of_nat [226; 128; 154; 195; 132; 194; 162]%nat).

Definition confidenceColor (confidence : Q) : string :=
  if Js.gt confidence (8 # 10) then "#00ff00"
  else if Js.gt confidence (6 # 10) then "#ffff00"
  else "#ff9500".

(** The colour triple spliced into the [rgba(...)] stroke style. *)
Definition confidenceRgba (confidence alpha : Q) : Style :=
  if Js.gt confidence (8 # 10) then Rgba 0 255 0 alpha
  else if Js.gt confidence (6 # 10) then Rgba 255 255 0 alpha
  else Rgba 255 149 0 alpha.

Definition draw_all (ops : list CanvasOp) : M unit :=
  fun w => (tt, w, map Draw ops).

(** [const scanY = y + (height * ((time * 2) % 1))]. *)
Definition scanY (y height time : Q) : Q :=
  (y + height * Js.mod1 (time * 2))%Q.

(** [face => ({ boundingBox: face.boundingBox })]. *)
Definition native_face (f : DetectedFace) : Face :=
  {| topLeft := None; bottomRight := None; probability := None;
     landmarks := None; boundingBox := Some (df_boundingBox f) |}.

(** The faces the detector branch of the [try] block ends with; [None]
    when the awaited promise rejects. *)
Definition detector_result (det : FaceDetection) (fr : FrameInput)
  : option (list Face) :=
  match type det with
  | tensorflow =>
      if has_detectFaces det then estimateFaces fr else Some []
  | native =>
      if has_detect det then map native_face <$> detect fr else Some []
  end.

(** The value of the local [confidence] when the loop body adds it to
    [totalConfidence]. *)
Definition confidence_of (det : FaceDetection) (face : Face) : Q :=
  match type det with
  | tensorflow =>
      match probability face with
      | Some (p0, _) => p0
      | None => 1%Q
      end
  | native => 1%Q
  end.

(** [handle = requestAnimationFrame(detectFaces)], stored in the ref. *)
Definition reschedule : M unit :=
  handle <- requestAnimationFrame ;;
  modify (setAnimationFrameRef handle).

Definition detection_log : string := "Face detection error:".

(** [array.forEach((x, index) => body)] where the body updates a local
    variable of the enclosing function (here [totalConfidence]). *)
Fixpoint forEach_from {A L} (index : nat) (xs : list A)
  (body : nat -> A -> L -> M L) (local : L) : M L :=
  match xs with
  | [] => ret local
  | x :: xs' =>
      local' <- body index x local ;;
      forEach_from (S index) xs' body local'
  end.

Definition forEach {A L} (xs : list A) (body : nat -> A -> L -> M L)
  (local : L) : M L :=
  forEach_from 0 xs body local.

(** The frame reaches the statistics code: both refs and the detector are
    set, the video has data ([readyState = 4]), the canvas has a 2D
    context and the detector's promise resolves. The result is the
    detector in use and the value of the local [faces]. *)
Definition frame_faces (w : World) (fr : FrameInput)
  : option (FaceDetection * list Face) :=
  match video fr, canvas fr, faceDetector w with
  | Some v, Some cv, Some det =>
      if (readyState v =? 4) && context2d cv
      then (fun faces => (det, faces)) <$> detector_result det fr
      else None
  | _, _, _ => None
  end.

(** The value of [totalConfidence] after the [forEach], started at [acc]. *)
Definition sum_confidences (det : FaceDetection) (faces : list Face) (acc : Q)
  : Q :=
  fold_left (fun total face => (total + confidence_of det face)%Q) faces acc.

(** The arithmetic mean of a list of numbers. *)
Definition mean (l : list Q) : Q :=
  (fold_left Qplus l 0 / inject_Z (Z.of_nat (length l)))%Q.

(** The confidence values one animation frame adds to the statistics. *)
Definition frame_confidences (w : World) (fr : FrameInput) : list Q :=
  match frame_faces w fr with
  | Some (det, faces) => map (confidence_of det) faces
  | None => []
  end.

(** Canvas operations up to the value of their numbers. *)
Definition Style_eqb (s t : Style) : bool :=
  match s, t with
  | Rgba r g b a, Rgba r' g' b' a' =>
      (r =? r') && (g =? g') && (b =? b') && Qeq_bool a a'
  | Hex c, Hex c' => String.eqb c c'
  | TheGradient, TheGradient => true
  | _, _ => false
  end.

Definition CanvasOp_eqb (o p : CanvasOp) : bool :=
  match o, p with
  | ClearRect x y w h, ClearRect x' y' w' h'
  | DrawImage x y w h, DrawImage x' y' w' h'
  | FillRect x y w h, FillRect x' y' w' h'
  | CreateLinearGradient x y w h, CreateLinearGradient x' y' w' h' =>
      Qeq_bool x x' && Qeq_bool y y' && Qeq_bool w w' && Qeq_bool h h'
  | SetStrokeStyle s, SetStrokeStyle s'
  | SetFillStyle s, SetFillStyle s' => Style_eqb s s'
  | SetLineWidth a, SetLineWidth a'
  | SetShadowBlur a, SetShadowBlur a' => Qeq_bool a a'
  | SetShadowColor c, SetShadowColor c'
  | SetFont c, SetFont c'
  | MeasureText c, MeasureText c' => String.eqb c c'
  | BeginPath, BeginPath | Stroke, Stroke | Fill, Fill => true
  | MoveTo x y, MoveTo x' y'
  | LineTo x y, LineTo x' y' => Qeq_bool x x' && Qeq_bool y y'
  | Arc x y r a b, Arc x' y' r' a' b' =>
      Qeq_bool x x' && Qeq_bool y y' && Qeq_bool r r' && Qeq_bool a a'
      && Qeq_bool b b'
  | AddColorStop a s, AddColorStop a' s' => Qeq_bool a a' && Style_eqb s s'
  | FillText t x y, FillText t' x' y' =>
      String.eqb t t' && Qeq_bool x x' && Qeq_bool y y'
  | _, _ => false
  end.

Fixpoint same_drawing (l m : list CanvasOp) : bool :=
  match l, m with
  | [], [] => true
  | o :: l', p :: m' => CanvasOp_eqb o p && same_drawing l' m'
  | _, _ => false
  end.

(** The canvas operations among the effects of a call, in order. *)
Definition drawn (es : list Effect) : list CanvasOp :=
  omap (fun e => match e with Draw op => Some op | _ => None end) es.

(** The animation-frame callbacks a call requests. *)
Definition requested (es : list Effect) : list Z :=
  omap (fun e => match e with RequestAnimationFrame h => Some h | _ => None end) es.

(** The camera tracks a call stops. *)
Definition stopped_tracks (es : list Effect) : list nat :=
  omap (fun e => match e with StopTrack s => Some s | _ => None end) es.

(** The world with the clock forgotten: the component's state, its ref
    and the browser state, without the coming [Date.now()] readings. *)
Definition component (w : World) : World := setClock (fun _ => 0) w.

(** The counters once a frame has reached the statistics code with the
    detector [det] and the local [faces]. *)
Definition count_faces (det : FaceDetection) (faces : list Face) (w : World)
  : World :=
  let n := Z.of_nat (length faces) in
  let w1 := setFaceCount n w in
  if 0 <? n then
    setDetectionStats (fun prev =>
      {| totalDetections := totalDetections prev + n;
         avgConfidence := (sum_confidences det faces 0 / inject_Z n)%Q |}) w1
  else w1.

(** The world once [reschedule] has run. *)
Definition rescheduled (w : World) : World :=
  let handle := rafCounter w + 1 in
  setAnimationFrameRef handle (setRafCounter handle w).

Section Platform.

(** [Math.sin], [Math.PI] and [ctx.measureText(text).width] under a font. *)
Variable Math_sin : Q -> Q.
Variable Math_PI : Q.
Variable measureText : string -> string -> Q.

Definition drawAdvancedBoundingBox (x y width height : Q) (label : string)
  (confidence : Q) : M unit :=
  now <- Date_now ;;
  let time := (inject_Z now / 1000)%Q in
  let pulse := (Math_sin (time * 3) * (1 # 2) + (1 # 2))%Q in
  let color := confidenceColor confidence in
  let cornerSize := (Js.min width height * (15 # 100))%Q in
  let scan := scanY y height time in
  let confidenceText := Js.string_of_Z (Js.round (confidence * 100)) +:+ "%" in
  let labelText := label +:+ " " +:+ label_separator +:+ " " +:+ confidenceText in
  let labelWidth := (measureText label_font labelText + 16)%Q in
  let labelHeight := 24%Q in
  let barWidth := (labelWidth - 16)%Q in
  let barHeight := 3%Q in
  let barY := (y - 8)%Q in
  draw_all
    [ SetStrokeStyle (confidenceRgba confidence ((7 # 10) + pulse * (3 # 10)));
      SetLineWidth 3;
      SetShadowColor color;
      SetShadowBlur (15 + pulse * 10);
      SetLineWidth 4;
      (* top-left corner *)
      BeginPath;
      MoveTo x (y + cornerSize);
      LineTo x y;
      LineTo (x + cornerSize) y;
      Stroke;
      (* top-right corner *)
      BeginPath;
      MoveTo (x + width - cornerSize) y;
      LineTo (x + width) y;
      LineTo (x + width) (y + cornerSize);
      Stroke;
      (* bottom-left corner *)
      BeginPath;
      MoveTo x (y + height - cornerSize);
      LineTo x (y + height);
      LineTo (x + cornerSize) (y + height);
      Stroke;
      (* bottom-right corner *)
      BeginPath;
      MoveTo (x + width - cornerSize) (y + height);
      LineTo (x + width) (y + height);
      LineTo (x + width) (y + height - cornerSize);
      Stroke;
      (* scanning line *)
      SetStrokeStyle (Rgba 0 255 255 ((1 # 2) + pulse * (1 # 2)));
      SetLineWidth 2;
      BeginPath;
      MoveTo x scan;
      LineTo (x + width) scan;
      Stroke;
      (* label *)
      SetShadowBlur 0;
      SetFont label_font;
      MeasureText labelText;
      CreateLinearGradient x (y - labelHeight - 5) x (y - 5);
      AddColorStop 0 (Rgba 0 0 0 (8 # 10));
      AddColorStop 1 (Rgba 0 0 0 (6 # 10));
      SetFillStyle TheGradient;
      FillRect x (y - labelHeight - 5) labelWidth labelHeight;
      SetFillStyle (Hex color);
      FillText labelText (x + 8) (y - 12);
      (* confidence bar *)
      SetFillStyle (Rgba 255 255 255 (2 # 10));
      FillRect (x + 8) barY barWidth barHeight;
      SetFillStyle (Hex color);
      FillRect (x + 8) barY (barWidth * confidence) barHeight ]%Q.

Definition drawFaceLandmarks (landmarks : list FaceLandmark) : M unit :=
  now <- Date_now ;;
  let time := (inject_Z now / 1000)%Q in
  let pulse := (Math_sin (time * 4) * (1 # 2) + (1 # 2))%Q in
  draw_all
    [ SetFillStyle (Rgba 255 0 150 ((8 # 10) + pulse * (2 # 10)));
      SetShadowColor "#ff0096";
      SetShadowBlur 8 ]%Q ;;
  forEach landmarks
    (fun _ landmark _ =>
       let size := (2 + pulse)%Q in
       draw_all
         [ BeginPath;
           Arc (lm_x landmark) (lm_y landmark) size 0 (2 * Math_PI);
           Fill ]%Q)
    tt ;;
  draw_all [ SetShadowBlur 0%Q ].

(** The body of [faces.forEach((face, index) => ...)]; the state threaded
    through is the local [totalConfidence]. *)
Definition draw_face (det : FaceDetection) (index : nat) (face : Face)
  (totalConfidence : Q) : M Q :=
  let label := "Face " +:+ Js.string_of_Z (Z.of_nat index + 1) in
  match type det with
  | tensorflow =>
      let '(x, y) := default (0%Q, 0%Q) (topLeft face) in
      let '(x2, y2) := default (0%Q, 0%Q) (bottomRight face) in
      drawAdvancedBoundingBox x y (x2 - x) (y2 - y) label
        (confidence_of det face) ;;
      match landmarks face with
      | Some points => drawFaceLandmarks points
      | None => ret tt
      end
  | native =>
      match boundingBox face with
      | Some box =>
          drawAdvancedBoundingBox (rect_x box) (rect_y box)
            (rect_width box) (rect_height box) label (confidence_of det face)
      | None => ret tt
      end
  end ;;
  ret (totalConfidence + confidence_of det face)%Q.

(** The [try] block of [detectFaces], with its [catch]. *)
Definition detect_and_draw (cv : Canvas) (det : FaceDetection)
  (fr : FrameInput) : M unit :=
  draw_all
    [ ClearRect 0 0 (canvas_width cv) (canvas_height cv);
      DrawImage 0 0 (canvas_width cv) (canvas_height cv) ]%Q ;;
  match type det, has_detectFaces det, has_detect det with
  | tensorflow, true, _ => emit EstimateFaces
  | native, _, true => emit NativeDetect
  | _, _, _ => ret tt
  end ;;
  match detector_result det fr with
  | None => emit (ConsoleWarn detection_log)
  | Some faces =>
      let n := Z.of_nat (length faces) in
      modify (setFaceCount n) ;;
      totalConfidence <- forEach faces (draw_face det) 0%Q ;;
      if 0 <? n then
        modify (setDetectionStats (fun prev =>
          {| totalDetections := totalDetections prev + n;
             avgConfidence := (totalConfidence / inject_Z n)%Q |}))
      else ret tt
  end.

Definition detectFaces (fr : FrameInput) : M unit :=
  detector <- gets faceDetector ;;
  match video fr, canvas fr, detector with
  | Some v, Some cv, Some det =>
      if negb (readyState v =? 4) then reschedule else
      emit GetContext2d ;;
      if negb (context2d cv) then reschedule else
      detect_and_draw cv det fr ;;
      reschedule
  | _, _, _ => reschedule
  end.

(** ** Runs of the mounted component *)

Inductive Event :=
| AnimationFrame (fr : FrameInput)    (* the browser calls [detectFaces] *)
| ResetStats.                         (* the user clicks Reset Stats *)

Definition step (ev : Event) : M unit :=
  match ev with
  | AnimationFrame fr => detectFaces fr
  | ResetStats => resetStats
  end.

Fixpoint run (evs : list Event) : M unit :=
  match evs with
  | [] => ret tt
  | ev :: evs' => step ev ;; run evs'
  end.

(** The statistics as claim C1 reads them: the confidence values of all
    the detections counted since the last reset, oldest first. *)
Fixpoint accumulated_confidences (evs : list Event) (w : World) (acc : list Q)
  : list Q :=
  match evs with
  | [] => acc
  | AnimationFrame fr :: evs' =>
      accumulated_confidences evs' (world (detectFaces fr w))
        (acc ++ frame_confidences w fr)
  | ResetStats :: evs' =>
      accumulated_confidences evs' (world (resetStats w)) []
  end.

End Platform.

(** ** Sample inputs, for the closed examples below *)

Module Sample.

(** Stand-ins for the platform's functions: the theorems hold for every
    choice, the examples need one. *)
Definition sin (t : Q) : Q := (t - t * t * t / 6)%Q.
Definition PI : Q := (355 # 113)%Q.
Definition measure (font text : string) : Q :=
  inject_Z (8 * Z.of_nat (String.length text)).
Definition toISOString (now : Z) : string := "2024-01-02T03:04:05.678Z".

(** A clock that advances 250 ms per reading, from [t0]. *)
Definition clock_from (t0 : Z) (n : nat) : Z := t0 + 250 * Z.of_nat n.

(** The component once BlazeFace has loaded. *)
Definition mounted : World :=
  world (initializeFaceDetection TfLoaded NoFaceDetector
           (initialWorld (clock_from 0))).

(** The component when only the native detector is there. *)
Definition mounted_native : World :=
  world (initializeFaceDetection TfImportFails NativeConstructed
           (initialWorld (clock_from 0))).

Definition face (p : Q) : Face :=
  {| topLeft := Some (0, 0)%Q; bottomRight := Some (100, 100)%Q;
     probability := Some (p, []); landmarks := None; boundingBox := None |}.

Definition ready_video : Video := {| readyState := 4 |}.
Definition hd_canvas : Canvas :=
  {| context2d := true; canvas_width := 1280; canvas_height := 720 |}.

(** An animation frame on which BlazeFace reports the faces [fs]. *)
Definition frame (fs : list Face) : FrameInput :=
  {| video := Some ready_video; canvas := Some hd_canvas;
     estimateFaces := Some fs; detect := None |}.

Definition chunk (bytes : list Z) : Blob :=
  {| blob_data := bytes; blob_type := "video/webm;codecs=vp9" |}.

(** One face seen with confidence 1, then one with confidence 1/2. *)
Definition two_frames : list Event :=
  [AnimationFrame (frame [face 1]); AnimationFrame (frame [face (1 # 2)])].

(** The component with the camera stream 7 attached and playing, after
    the first animation frame. *)
Definition streaming : World :=
  world (detectFaces sin PI measure (frame [face 1])
           (world (cameraEffect true true (Playing 7) mounted))).

End Sample.

(** ** The rest of the component: the [loadeddata] listener, the view
    and the user's clicks (lines 343-349 and 429-579) *)

(** [a || b] on numbers: [b] when [a] is 0. *)
Definition number_or (a b : Q) : Q := if Qeq_bool a 0 then b else a.

(** The canvas once the [loadeddata] listener has sized it after the
    video: [canvas.width = video.videoWidth || 1280] and
    [canvas.height = video.videoHeight || 720]. *)
Definition resized (videoWidth videoHeight : Q) (cv : Canvas) : Canvas :=
  {| context2d := context2d cv;
     canvas_width := number_or videoWidth 1280;
     canvas_height := number_or videoHeight 720 |}.

(** The button of the controls row that starts or stops a recording. *)
Inductive RecordButton :=
| StartButton (disabled : bool)     (* [disabled={!!error}] *)
| StopButton.

(** The parts of the rendered page that depend on the state (the fixed
    texts, icons and class names are left out). *)
Record Screen := {
  faces_card : Z;                     (* [{faceCount}] *)
  total_card : Z;                     (* [{detectionStats.totalDetections}] *)
  confidence_card : string;           (* [{Math.round(avgConfidence * 100)}%] *)
  error_banner : option string;       (* [{error && ...}] *)
  face_indicator : option string;     (* [{faceCount > 0 && ...}] *)
  recording_indicator : bool;         (* [{isRecording && ...}] *)
  record_button : RecordButton
}.

Inductive View :=
| LoadingScreen                       (* the spinner, while [isLoading] *)
| Page (s : Screen).

(** The text of the face-count indicator:
    [{faceCount} face{faceCount !== 1 ? 's' : ''}]. *)
Definition indicator_text (faceCount : Z) : string :=
  Js.string_of_Z faceCount +:+ " face"
  +:+ (if negb (faceCount =? 1) then "s" else "").

(** What the component returns. *)
Definition render (w : World) : View :=
  if isLoading w then LoadingScreen else
  Page
    {| faces_card := faceCount w;
       total_card := totalDetections (detectionStats w);
       confidence_card :=
         Js.string_of_Z (Js.round (avgConfidence (detectionStats w) * 100))
         +:+ "%";
       error_banner :=
         if String.eqb (error w) "" then None else Some (error w);
       face_indicator :=
         if 0 <? faceCount w then Some (indicator_text (faceCount w))
         else None;
       recording_indicator := isRecording w;
       record_button :=
         if negb (isRecording w)
         then StartButton (negb (String.eqb (error w) ""))
         else StopButton |}.

(** The effects a call of [detectFaces] may have: the canvas, the two
    detectors, the console and the animation-frame request. *)
Definition frame_effect (e : Effect) : bool :=
  match e with
  | Draw _ | GetContext2d | EstimateFaces | NativeDetect
  | ConsoleWarn _ | RequestAnimationFrame _ => true
  | _ => false
  end.

(** The labels a call writes on the canvas with [fillText]. *)
Definition labels (es : list Effect) : list string :=
  omap (fun e => match e with Draw (FillText t _ _) => Some t | _ => None end)
    es.

(** The [MediaRecorder] constructions a call attempts. *)
Definition recorder_constructions (es : list Effect) : list string :=
  omap (fun e => match e with NewMediaRecorder m _ => Some m | _ => None end)
    es.

(** The opacity of a colour lies between 0 and 1. *)
Definition opaque_in_range (s : Style) : Prop :=
  match s with
  | Rgba _ _ _ alpha => (0 <= alpha /\ alpha <= 1)%Q
  | _ => True
  end.

Definition styles_in_range (op : CanvasOp) : Prop :=
  match op with
  | SetStrokeStyle s | SetFillStyle s | AddColorStop _ s => opaque_in_range s
  | _ => True
  end.

(** Every probability the detector reports on this frame is in [0, 1]. *)
Definition probabilities_in_range (fr : FrameInput) : Prop :=
  forall faces face p rest,
    estimateFaces fr = Some faces ->
    In face faces ->
    probability face = Some (p, rest) ->
    (0 <= p /\ p <= 1)%Q.

(** The recording state hangs together: [isRecording] says whether a
    recorder is referenced, the reference points to a recorder that
    exists, and a recorder that is not inactive is the referenced one. *)
Definition recording_consistent (w : World) : Prop :=
  isRecording w = bool_decide (is_Some (mediaRecorder w))
  /\ (forall id, mediaRecorder w = Some id -> is_Some (recorder_state id w))
  /\ (forall id s, recorder_state id w = Some s ->
                   s <> inactive ->
                   mediaRecorder w = Some id).

(** The bytes of a list of blobs, counted. *)
Definition total_size (blobs : list Blob) : Z :=
  foldr (fun b n => blob_size b + n) 0 blobs.

(** The anchors a call clicks. *)
Definition clicked (es : list Effect) : list Anchor :=
  omap (fun e => match e with AnchorClick a => Some a | _ => None end) es.

Section Component.

Variable Math_sin : Q -> Q.
Variable Math_PI : Q.
Variable measureText : string -> string -> Q.
Variable toISOString : Z -> string.

(** The [loadeddata] listener of [initializeCamera]: it sizes the canvas
    after the video and starts the detection loop. [fr] is what that
    first call of [detectFaces] finds; its canvas, when the ref is still
    set, is the element just sized. *)
Definition on_loadeddata (videoWidth videoHeight : Q) (fr : FrameInput)
  : M unit :=
  detectFaces Math_sin Math_PI measureText
    {| video := video fr;
       canvas := resized videoWidth videoHeight <$> canvas fr;
       estimateFaces := estimateFaces fr;
       detect := detect fr |}.

(** Everything that can happen to the mounted component. *)
Inductive Action :=
| MountEffect (tf : TfOutcome) (nt : NativeOutcome)
| CameraEffectRuns (video canvas : bool) (o : CameraOutcome)
| CleanupRuns
| LoadedData (videoWidth videoHeight : Q) (fr : FrameInput)
| FrameCallback (fr : FrameInput)
| ClickRecord (canvas : bool) (o : RecorderOutcome)
| ClickReset
| RecorderFires (id : nat) (ev : RecorderEvent).

(** A click reaches its handler only if the button is on the page and
    enabled: the record button is the start button ([onClick =
    startRecording], disabled while an error is shown) or the stop button
    ([onClick = stopRecording]); there is no button on the loading
    screen. *)
Definition perform (a : Action) : M unit :=
  match a with
  | MountEffect tf nt => initializeFaceDetection tf nt
  | CameraEffectRuns v c o => cameraEffect v c o
  | CleanupRuns => cleanup
  | LoadedData vw vh fr => on_loadeddata vw vh fr
  | FrameCallback fr => detectFaces Math_sin Math_PI measureText fr
  | ClickRecord c o =>
      view <- gets render ;;
      match view with
      | Page s =>
          match record_button s with
          | StartButton false => startRecording c o
          | StartButton true => ret tt
          | StopButton => stopRecording
          end
      | LoadingScreen => ret tt
      end
  | ClickReset =>
      view <- gets render ;;
      match view with
      | Page _ => resetStats
      | LoadingScreen => ret tt
      end
  | RecorderFires id ev => deliver toISOString id ev
  end.

Fixpoint perform_all (acts : list Action) : M unit :=
  match acts with
  | [] => ret tt
  | a :: acts' => perform a ;; perform_all acts'
  end.

End Component.

(** * Properties *)

(** ** The monad *)

Lemma bind_result {A B} (m : M A) (k : A -> M B) (w : World) :
  result (bind m k w) = result (k (result (m w)) (world (m w))).
Proof.
  unfold bind, result, world.
  destruct (m w) as [[a w1] e1]; cbn.
  destruct (k a w1) as [[b w2] e2]; reflexivity.
Qed.

Lemma bind_world {A B} (m : M A) (k : A -> M B) (w : World) :
  world (bind m k w) = world (k (result (m w)) (world (m w))).
Proof.
  unfold bind, result, world.
  destruct (m w) as [[a w1] e1]; cbn.
  destruct (k a w1) as [[b w2] e2]; reflexivity.
Qed.

Lemma bind_effects {A B} (m : M A) (k : A -> M B) (w : World) :
  effects (bind m k w)
  = effects (m w) ++ effects (k (result (m w)) (world (m w))).
Proof.
  unfold bind, result, world, effects.
  destruct (m w) as [[a w1] e1]; cbn.
  destruct (k a w1) as [[b w2] e2]; reflexivity.
Qed.

(** [H : In e es] where no element of the explicit list [es] is [e]. *)
Ltac absent_effect H :=
  cbn in H;
  repeat (destruct H as [H | H]; [ discriminate H |]);
  contradiction.

(** [NoDup es] for an explicit list [es] of pairwise different effects. *)
Ltac distinct_effects :=
  repeat (apply NoDup_cons_2;
          [ rewrite ?not_elem_of_cons; repeat split;
            first [ discriminate | apply not_elem_of_nil ] |]);
  apply NoDup_nil_2.

(** ** Detector bootstrap *)

(** The TensorFlow attempt answers the same in every world. *)
Lemma initializeTensorFlowDetection_result (tf : TfOutcome) (w : World) :
  result (initializeTensorFlowDetection tf w)
  = match tf with TfLoaded => true | _ => false end.
Proof. destruct tf; reflexivity. Qed.

Lemma initializeNativeDetection_result (nt : NativeOutcome) (w : World) :
  result (initializeNativeDetection nt w)
  = match nt with NativeConstructed => true | _ => false end.
Proof. destruct nt; reflexivity. Qed.

(** C2. [initializeFaceDetection] is a strict two-step fallback. With
    [first] the TensorFlow attempt, [second] the native attempt, and
    [tf_ok], [native_ok] the values they return:
    - each attempt returns [true] exactly when the platform lets it
      succeed, and makes exactly the platform calls listed, ending in a
      console warning when it fails;
    - the run is the TensorFlow attempt, followed by the native attempt
      if and only if the first returned [false], and by nothing else:
      when the first returns [true] the whole run is that attempt, and
      the [FaceDetector] constructor is called only when it returned
      [false];
    - the world at the end is the one before with [isLoading] false and
      the first detector that succeeded stored, or, when both attempts
      return [false], with the no-detector message as error: the error
      string is assigned exactly then;
    - [isLoading] is [false] at the end of every run. *)
Theorem detector_bootstrap_fallback
  (tf : TfOutcome) (nt : NativeOutcome) (w : World) :
  let first := initializeTensorFlowDetection tf (setIsLoading true w) in
  let second := initializeNativeDetection nt (world first) in
  let tf_ok := result first in
  let native_ok := result second in
  let final := initializeFaceDetection tf nt w in
  (tf_ok = true <-> tf = TfLoaded)
  /\ (native_ok = true <-> nt = NativeConstructed)
  /\ effects first
     = match tf with
       | TfImportFails =>
           [ImportModule "@tensorflow/tfjs"; ConsoleWarn tf_warning]
       | BlazefaceImportFails =>
           [ImportModule "@tensorflow/tfjs";
            ImportModule "@tensorflow-models/blazeface";
            ConsoleWarn tf_warning]
       | TfReadyFails =>
           [ImportModule "@tensorflow/tfjs";
            ImportModule "@tensorflow-models/blazeface";
            TfReady; ConsoleWarn tf_warning]
       | ModelLoadFails =>
           [ImportModule "@tensorflow/tfjs";
            ImportModule "@tensorflow-models/blazeface";
            TfReady; BlazefaceLoad; ConsoleWarn tf_warning]
       | TfLoaded =>
           [ImportModule "@tensorflow/tfjs";
            ImportModule "@tensorflow-models/blazeface";
            TfReady; BlazefaceLoad]
       end
  /\ effects second
     = match nt with
       | NoFaceDetector => []
       | ConstructorThrows =>
           [NewFaceDetector 10 false; ConsoleWarn native_warning]
       | NativeConstructed => [NewFaceDetector 10 false]
       end
  /\ effects final = effects first ++ (if tf_ok then [] else effects second)
  /\ world final
     = (if tf_ok
        then setIsLoading false (setFaceDetector (Some tensorflow_detector) w)
        else if native_ok
        then setIsLoading false (setFaceDetector (Some native_detector) w)
        else setIsLoading false (setError no_detector_message w))
  /\ (tf_ok = true -> final = (tt, world first, effects first))
  /\ (In (NewFaceDetector 10 false) (effects final) -> tf_ok = false)
  /\ (tf_ok = false -> native_ok = true ->
      In (NewFaceDetector 10 false) (effects final))
  /\ faceDetector (world final)
     = (if tf_ok then Some tensorflow_detector
        else if native_ok then Some native_detector
        else faceDetector w)
  /\ error (world final)
     = (if tf_ok || native_ok then error w else no_detector_message)
  /\ isLoading (world final) = false.
Proof.
  destruct tf, nt; cbn; repeat split;
    first
      [ reflexivity
      | discriminate
      | intros _; reflexivity
      | intros H; discriminate H
      | intros _ _; cbn; tauto
      | intros H; absent_effect H ].
Qed.

(** On mount the error string is empty, so it shows the no-detector
    message if and only if both attempts failed. *)
Corollary bootstrap_error_iff_both_fail
  (tf : TfOutcome) (nt : NativeOutcome) (clk : nat -> Z) :
  error (world (initializeFaceDetection tf nt (initialWorld clk)))
  = no_detector_message
  <-> tf <> TfLoaded /\ nt <> NativeConstructed.
Proof.
  destruct tf, nt; cbn; split;
    try (intros [? ?]; congruence);
    try (intros _; split; discriminate);
    try discriminate; try reflexivity.
Qed.

(** When BlazeFace cannot be imported and the browser has a
    [FaceDetector], the component ends up on the native detector, with
    no error. *)
Example bootstrap_falls_back_to_native :
  faceDetector Sample.mounted_native = Some native_detector
  /\ error Sample.mounted_native = EmptyString
  /\ isLoading Sample.mounted_native = false.
Proof. repeat split. Qed.

(** ** Failures *)

(** C4, as the code has it. Each failure is caught and surfaced by one
    assignment to the error string, and no platform call is issued twice
    (no retry). What is left of the operation depends on where its [try]
    block fails:
    - [initializeCamera] asks for the camera only under its guard (both
      refs set, not loading, a detector there); when [getUserMedia]
      rejects, the world is the one before with the camera message as
      error; when [video.play()] rejects, the same [catch] sets the same
      message with the stream already attached to the video element and
      the [loadeddata] listener registered;
    - when neither detector can be set up, the world is the one before
      with the no-detector message as error and [isLoading] false, after
      exactly the calls of the two failed attempts;
    - when the [MediaRecorder] constructor throws, the world is the one
      before with the recording message as error; when
      [recorder.start(1000)] throws, the same [catch] sets the same
      message with a recorder object created (inactive, not referenced
      by [mediaRecorder], [isRecording] untouched); without a canvas
      nothing happens. *)
Theorem failures_surface_as_error (w : World) :
  (forall video canvas,
     let guard := video && canvas && negb (isLoading w)
                  && bool_decide (is_Some (faceDetector w)) in
     initializeCamera video canvas GetUserMediaRejects w
     = (if guard
        then (tt, setError camera_message w,
              [GetUserMedia; ConsoleError camera_log])
        else (tt, w, []))
     /\ forall stream,
          initializeCamera video canvas (PlayRejects stream) w
          = (if guard
             then (tt,
                   setError camera_message (setSrcObject (Some stream) w),
                   [GetUserMedia; AddEventListener "loadeddata"; VideoPlay;
                    ConsoleError camera_log])
             else (tt, w, [])))
  /\ (forall tf nt,
        tf <> TfLoaded -> nt <> NativeConstructed ->
        let r := initializeFaceDetection tf nt w in
        world r = setError no_detector_message (setIsLoading false w)
        /\ effects r
           = match tf with
             | TfImportFails => [ImportModule "@tensorflow/tfjs"]
             | BlazefaceImportFails =>
                 [ImportModule "@tensorflow/tfjs";
                  ImportModule "@tensorflow-models/blazeface"]
             | TfReadyFails =>
                 [ImportModule "@tensorflow/tfjs";
                  ImportModule "@tensorflow-models/blazeface"; TfReady]
             | ModelLoadFails | TfLoaded =>
                 [ImportModule "@tensorflow/tfjs";
                  ImportModule "@tensorflow-models/blazeface"; TfReady;
                  BlazefaceLoad]
             end
             ++ [ConsoleWarn tf_warning]
             ++ match nt with
                | NoFaceDetector => []
                | ConstructorThrows | NativeConstructed =>
                    [NewFaceDetector 10 false; ConsoleWarn native_warning]
                end
        /\ NoDup (effects r))
  /\ startRecording true MediaRecorderThrows w
     = (tt, setError recording_message w,
        [CaptureStream 60;
         NewMediaRecorder "video/webm;codecs=vp9" 2500000;
         ConsoleError recording_log])
  /\ (let id := fresh (dom (recorders w)) in
      startRecording true StartThrows w
      = (tt,
         setError recording_message
           (setRecorders
              (<[id := {| rec_state := inactive; chunks := [] |}]>
                 (recorders w)) w),
         [CaptureStream 60;
          NewMediaRecorder "video/webm;codecs=vp9" 2500000;
          RecorderStart id 1000;
          ConsoleError recording_log]))
  /\ (forall o, startRecording false o w = (tt, w, [])).
Proof.
  split; [| split; [| split; [| split ]]].
  - intros video canvas guard; subst guard.
    unfold initializeCamera, bind, gets.
    destruct (video && canvas && negb (isLoading w)
              && bool_decide (is_Some (faceDetector w)));
      split; try intros stream; reflexivity.
  - intros tf nt Htf Hnt r; subst r.
    destruct tf, nt; try congruence;
      (split; [ reflexivity | split; [ reflexivity |] ]);
      cbn; distinct_effects.
  - reflexivity.
  - reflexivity.
  - intros o. reflexivity.
Qed.

(** C4, counterexample. With BlazeFace loaded and both refs set,
    [getUserMedia] resolves with the stream 7 and [video.play()]
    rejects: the camera message is shown, and the operation is left half
    done, the stream attached to the video element. *)
Lemma play_rejection_leaves_stream_attached :
  error (world (initializeCamera true true (PlayRejects 7) Sample.mounted))
  = camera_message
  /\ srcObject Sample.mounted = None
  /\ srcObject
       (world (initializeCamera true true (PlayRejects 7) Sample.mounted))
     = Some 7%nat
  /\ world (initializeCamera true true (PlayRejects 7) Sample.mounted)
     <> setError camera_message Sample.mounted.
Proof.
  split; [ reflexivity |]. split; [ reflexivity |]. split; [ reflexivity |].
  intros H. apply (f_equal srcObject) in H. discriminate H.
Qed.

(** ** Recording *)

Lemma string_app_assoc (a b c : string) :
  (a +:+ b) +:+ c = a +:+ (b +:+ c).
Proof.
  induction a as [| ch a IH]; [ reflexivity |].
  change (String ch ((a +:+ b) +:+ c) = String ch (a +:+ (b +:+ c))).
  f_equal; exact IH.
Qed.

(** The downloaded file is a [.webm] file, whatever the clock shows. *)
Lemma download_name_webm (iso : string) :
  exists stem, download_name iso = stem +:+ ".webm".
Proof.
  exists ("face-tracking-" +:+ Js.replace_all ":" "-" (Js.slice0 19 iso)).
  unfold download_name. symmetry. apply string_app_assoc.
Qed.

(** The [chunks] array of recorder [id], if there is such a recorder. *)
Lemma chunks_ondataavailable (id : nat) (data : Blob) (w : World) :
  chunks <$> recorders (world (ondataavailable id data w)) !! id
  = (fun cs => cs ++ filter (fun d => 0 < blob_size d) [data])
      <$> (chunks <$> recorders w !! id).
Proof.
  unfold ondataavailable.
  rewrite filter_cons, filter_nil.
  destruct (Z.ltb_spec 0 (blob_size data)) as [Hpos | Hneg].
  - rewrite decide_True by exact Hpos. cbn.
    rewrite lookup_alter_eq.
    destruct (recorders w !! id); reflexivity.
  - rewrite decide_False by lia. cbn.
    destruct (recorders w !! id); cbn; [ now rewrite app_nil_r | reflexivity ].
Qed.

Lemma chunks_deliver_data (toISOString : Z -> string) (id : nat)
  (datas : list Blob) (w : World) :
  chunks <$> recorders
    (world (deliver_all toISOString id (map DataAvailable datas) w)) !! id
  = (fun cs => cs ++ filter (fun d => 0 < blob_size d) datas)
      <$> (chunks <$> recorders w !! id).
Proof.
  revert w; induction datas as [| d datas IH]; intros w; cbn [map deliver_all].
  - cbn. destruct (recorders w !! id); cbn; [ now rewrite app_nil_r | reflexivity ].
  - rewrite bind_world. cbn [deliver].
    rewrite IH, chunks_ondataavailable.
    rewrite (filter_cons _ d datas), (filter_cons _ d []), filter_nil.
    destruct (recorders w !! id) as [r |]; cbn; [| reflexivity ].
    destruct (decide (0 < blob_size d)); cbn;
      now rewrite <- ?app_assoc, ?app_nil_r.
Qed.

Lemma chunks_stopRecording (id : nat) (w : World) :
  chunks <$> recorders (world (stopRecording w)) !! id
  = chunks <$> recorders w !! id.
Proof.
  unfold stopRecording.
  rewrite bind_world; cbn.
  destruct (mediaRecorder w) as [mr |]; [| reflexivity ].
  rewrite bind_world; cbn.
  destruct (recorder_state mr w) as [[| |] |]; cbn; try reflexivity.
  all: destruct (decide (mr = id)) as [-> | Hne];
    [ rewrite lookup_alter_eq; destruct (recorders w !! id); reflexivity
    | now rewrite lookup_alter_ne ].
Qed.

(** What [startRecording] leaves when every step succeeds. *)
Lemma startRecording_started (w : World) :
  let id := fresh (dom (recorders w)) in
  let w1 := world (startRecording true Started w) in
  mediaRecorder w1 = Some id
  /\ isRecording w1 = true
  /\ recorders w1 !! id = Some {| rec_state := recording; chunks := [] |}
  /\ effects (startRecording true Started w)
     = [CaptureStream 60;
        NewMediaRecorder "video/webm;codecs=vp9" 2500000;
        RecorderStart id 1000].
Proof.
  cbn. repeat split.
  now rewrite lookup_alter_eq, lookup_insert_eq.
Qed.

(** The effects of [onstop], from the chunks collected so far. *)
Lemma onstop_effects (toISOString : Z -> string) (id : nat) (w : World)
  (cs : list Blob) :
  chunks <$> recorders w !! id = Some cs ->
  effects (onstop toISOString id w)
  = let blob := new_Blob cs "video/webm" in
    let a := {| href := blob;
                download := download_name (toISOString (clock w 0%nat)) |} in
    [CreateObjectURL blob; AppendChild a; AnchorClick a; RemoveChild a;
     RevokeObjectURL blob].
Proof.
  intros H. unfold onstop.
  rewrite bind_effects; cbn.
  destruct (recorders w !! id) as [r |]; [| discriminate ].
  cbn in H. injection H as <-. reflexivity.
Qed.

(** C7. A recording that is started, receives the data chunks [before],
    is stopped with [stopRecording], receives the chunks [after] (the
    recorder's last data) and then the [stop] event, ends in exactly one
    download: the anchor clicked points to a single blob of type
    [video/webm] holding, in arrival order, the bytes of the chunks of
    non-zero size, and the name of the file ends in [.webm]. *)
Theorem recording_stops_into_webm_download
  (toISOString : Z -> string) (w : World) (id : nat)
  (before after : list Blob) :
  mediaRecorder (world (startRecording true Started w)) = Some id ->
  let w1 := world (startRecording true Started w) in
  let w2 := world (deliver_all toISOString id (map DataAvailable before) w1) in
  let w3 := world (stopRecording w2) in
  let w4 := world (deliver_all toISOString id (map DataAvailable after) w3) in
  let kept := filter (fun d => 0 < blob_size d) (before ++ after) in
  let blob := {| blob_data := concat (map blob_data kept);
                 blob_type := "video/webm" |} in
  exists stem,
    let a := {| href := blob; download := stem +:+ ".webm" |} in
    effects (onstop toISOString id w4)
    = [CreateObjectURL blob; AppendChild a; AnchorClick a; RemoveChild a;
       RevokeObjectURL blob].
Proof.
  intros Hid w1 w2 w3 w4 kept blob.
  destruct (startRecording_started w) as (Hmr & _ & Hrec & _).
  fold w1 in Hmr, Hrec.
  assert (id = fresh (dom (recorders w))) as -> by (subst w1; congruence).
  set (id := fresh (dom (recorders w))) in *.
  assert (Hchunks : chunks <$> recorders w4 !! id = Some kept).
  { subst w4 w3 w2 kept.
    rewrite chunks_deliver_data, chunks_stopRecording, chunks_deliver_data.
    rewrite Hrec; cbn. now rewrite filter_app. }
  destruct (download_name_webm (toISOString (clock w4 0%nat))) as [stem Hstem].
  exists stem.
  rewrite (onstop_effects _ _ _ _ Hchunks); cbn zeta.
  rewrite Hstem. reflexivity.
Qed.

(** ** Stopping a recording *)

(** C10. [stopRecording] does nothing at all (same world, no effect)
    when [mediaRecorder] is null or the recorder it refers to is
    inactive. Otherwise it calls [stop()] on that recorder, which turns
    inactive, sets [mediaRecorder] to null and [isRecording] to false;
    nothing else changes. *)
Theorem stopRecording_spec (w : World) :
  (mediaRecorder w = None -> stopRecording w = (tt, w, []))
  /\ (forall id,
        mediaRecorder w = Some id ->
        recorder_state id w = Some inactive ->
        stopRecording w = (tt, w, []))
  /\ (forall id s,
        mediaRecorder w = Some id ->
        recorder_state id w = Some s ->
        s <> inactive ->
        let w' := world (stopRecording w) in
        effects (stopRecording w) = [RecorderStop id]
        /\ mediaRecorder w' = None
        /\ isRecording w' = false
        /\ recorder_state id w' = Some inactive
        /\ w' = setIsRecording false
                  (setMediaRecorder None (set_rec_state id inactive w))).
Proof.
  unfold stopRecording, bind, gets.
  split; [| split].
  - intros ->. reflexivity.
  - intros id -> ->. reflexivity.
  - intros id s -> Hs Hact. rewrite Hs.
    assert (Hst : recorder_state id (set_rec_state id inactive w)
                  = Some inactive).
    { unfold recorder_state in *. cbn. rewrite lookup_alter_eq.
      destruct (recorders w !! id); [ reflexivity | discriminate ]. }
    destruct s; [ congruence | |]; cbn; repeat split; exact Hst.
Qed.

(** ** The drawing routines touch nothing but the canvas and the clock *)

Lemma requested_app (es fs : list Effect) :
  requested (es ++ fs) = requested es ++ requested fs.
Proof. apply omap_app. Qed.

Lemma requested_draw (ops : list CanvasOp) : requested (map Draw ops) = [].
Proof. induction ops as [| op ops IH]; [ reflexivity | exact IH ]. Qed.

(** A [forEach] whose body only draws. *)
Lemma forEach_draw_only {A} (ops : A -> list CanvasOp) (xs : list A)
  (index : nat) (w : World) :
  forEach_from index xs (fun _ x _ => draw_all (ops x)) tt w
  = (tt, w, map Draw (concat (map ops xs))).
Proof.
  revert index; induction xs as [| x xs IH]; intros index; [ reflexivity |].
  cbn [forEach_from map concat]. unfold bind, draw_all at 1.
  rewrite IH. cbn. now rewrite map_app.
Qed.

Section DrawingFacts.

Variable Math_sin : Q -> Q.
Variable Math_PI : Q.
Variable measureText : string -> string -> Q.

Let box := drawAdvancedBoundingBox Math_sin measureText.
Let dots := drawFaceLandmarks Math_sin Math_PI.
Let face_body := draw_face Math_sin Math_PI measureText.
Let frame_body := detect_and_draw Math_sin Math_PI measureText.
Let callback := detectFaces Math_sin Math_PI measureText.
Let replay := run Math_sin Math_PI measureText.
Let accumulated := accumulated_confidences Math_sin Math_PI measureText.

Lemma drawAdvancedBoundingBox_draws_only
  (x y width height : Q) (label : string) (confidence : Q) (w : World) :
  world (box x y width height label confidence w) = world (Date_now w)
  /\ requested (effects (box x y width height label confidence w)) = [].
Proof.
  split; [ reflexivity |].
  unfold box, drawAdvancedBoundingBox.
  rewrite bind_effects. cbn zeta. unfold draw_all at 1.
  cbn [effects snd Date_now app]. apply requested_draw.
Qed.

Lemma drawFaceLandmarks_draws_only (points : list FaceLandmark) (w : World) :
  world (dots points w) = world (Date_now w)
  /\ requested (effects (dots points w)) = [].
Proof.
  unfold dots, drawFaceLandmarks, forEach.
  split.
  - rewrite bind_world, bind_world, bind_world.
    cbn zeta. rewrite forEach_draw_only. reflexivity.
  - rewrite bind_effects, bind_effects, bind_effects.
    cbn zeta. rewrite forEach_draw_only.
    cbn [effects result world fst snd Date_now draw_all app].
    rewrite !requested_app, !requested_draw. reflexivity.
Qed.

Lemma drawAdvancedBoundingBox_same_reading
  (x y width height : Q) (label : string) (confidence : Q) (w1 w2 : World) :
  clock w1 0%nat = clock w2 0%nat ->
  effects (box x y width height label confidence w1)
  = effects (box x y width height label confidence w2).
Proof.
  intros H.
  unfold box, drawAdvancedBoundingBox, bind, Date_now, draw_all, effects.
  cbn beta iota zeta delta [snd app]. now rewrite H.
Qed.

Lemma drawFaceLandmarks_same_reading (points : list FaceLandmark)
  (w1 w2 : World) :
  clock w1 0%nat = clock w2 0%nat ->
  effects (dots points w1) = effects (dots points w2).
Proof.
  intros H. unfold dots, drawFaceLandmarks, forEach.
  rewrite !bind_effects. cbn zeta.
  rewrite !forEach_draw_only.
  cbn [effects result world fst snd Date_now draw_all app].
  now rewrite H.
Qed.

Lemma draw_face_facts (det : FaceDetection) (index : nat) (face : Face)
  (total : Q) (w : World) :
  result (face_body det index face total w)
  = (total + confidence_of det face)%Q
  /\ component (world (face_body det index face total w)) = component w
  /\ requested (effects (face_body det index face total w)) = [].
Proof.
  unfold face_body, draw_face.
  rewrite bind_result, bind_world, bind_effects, requested_app.
  cbn [ret result world effects fst snd]. rewrite app_nil_r.
  split; [ reflexivity |].
  destruct (type det).
  - destruct (default (0%Q, 0%Q) (topLeft face)) as [x y].
    destruct (default (0%Q, 0%Q) (bottomRight face)) as [x2 y2].
    rewrite bind_world, bind_effects, requested_app.
    destruct (drawAdvancedBoundingBox_draws_only x y (x2 - x)%Q (y2 - y)%Q
                ("Face " +:+ Js.string_of_Z (Z.of_nat index + 1))
                (confidence_of det face) w) as [Hw He].
    fold box. rewrite He.
    destruct (landmarks face) as [points |].
    + destruct (drawFaceLandmarks_draws_only points
                  (world (box x y (x2 - x)%Q (y2 - y)%Q
                            ("Face " +:+ Js.string_of_Z (Z.of_nat index + 1))
                            (confidence_of det face) w)))
        as [Hw' He'].
      fold dots. rewrite He', Hw', Hw. split; reflexivity.
    + cbn [ret world effects fst snd]. rewrite Hw. split; reflexivity.
  - destruct (boundingBox face) as [bb |]; [| split; reflexivity ].
    destruct (drawAdvancedBoundingBox_draws_only (rect_x bb) (rect_y bb)
                (rect_width bb) (rect_height bb)
                ("Face " +:+ Js.string_of_Z (Z.of_nat index + 1))
                (confidence_of det face) w) as [Hw He].
    fold box. rewrite He, Hw. split; reflexivity.
Qed.

Lemma forEach_faces_facts (det : FaceDetection) (faces : list Face)
  (index : nat) (total : Q) (w : World) :
  result (forEach_from index faces (face_body det) total w)
  = sum_confidences det faces total
  /\ component (world (forEach_from index faces (face_body det) total w))
     = component w
  /\ requested (effects (forEach_from index faces (face_body det) total w))
     = [].
Proof.
  revert index total w.
  induction faces as [| face faces IH]; intros index total w.
  - repeat split.
  - cbn [forEach_from sum_confidences fold_left].
    rewrite bind_result, bind_world, bind_effects, requested_app.
    destruct (draw_face_facts det index face total w) as (Hr & Hw & He).
    rewrite Hr, He.
    destruct (IH (S index) (total + confidence_of det face)%Q
                (world (face_body det index face total w)))
      as (Hr' & Hw' & He').
    rewrite Hr', Hw', He', Hw. repeat split.
Qed.

Lemma component_setDetectionStats (f : DetectionStats -> DetectionStats)
  (w : World) :
  component (setDetectionStats f w) = setDetectionStats f (component w).
Proof. reflexivity. Qed.

Lemma component_rescheduled (w : World) :
  component (rescheduled w) = rescheduled (component w).
Proof. reflexivity. Qed.

Lemma detect_and_draw_facts (cv : Canvas) (det : FaceDetection)
  (fr : FrameInput) (w : World) :
  component (world (frame_body cv det fr w))
  = component (match detector_result det fr with
               | Some faces => count_faces det faces w
               | None => w
               end)
  /\ requested (effects (frame_body cv det fr w)) = [].
Proof.
  unfold frame_body, detect_and_draw.
  rewrite bind_world, bind_effects, requested_app.
  cbn [draw_all world effects result fst snd]. rewrite requested_draw.
  rewrite bind_world, bind_effects, requested_app.
  set (call := match type det with
               | tensorflow => _
               | native => _
               end).
  assert (Hcall : world (call w) = w /\ requested (effects (call w)) = []).
  { subst call.
    destruct (type det), (has_detectFaces det), (has_detect det);
      split; reflexivity. }
  destruct Hcall as [-> ->].
  destruct (detector_result det fr) as [faces |]; [| split; reflexivity ].
  rewrite bind_world, bind_effects, requested_app.
  cbn [modify world effects result fst snd requested omap app].
  rewrite bind_world, bind_effects, requested_app.
  unfold forEach.
  destruct (forEach_faces_facts det faces 0%nat 0%Q
              (setFaceCount (Z.of_nat (length faces)) w)) as (Hr & Hw & He).
  fold face_body. rewrite Hr, He.
  unfold count_faces. cbn zeta.
  destruct (0 <? Z.of_nat (length faces)).
  - cbn [modify world effects result fst snd requested omap app].
    rewrite !component_setDetectionStats, Hw. split; reflexivity.
  - cbn [ret world effects result fst snd requested omap app].
    rewrite Hw. split; reflexivity.
Qed.

Lemma rafCounter_count_faces (det : FaceDetection) (faces : list Face)
  (w : World) :
  rafCounter (count_faces det faces w) = rafCounter w.
Proof. unfold count_faces. cbn zeta. now destruct (0 <? _). Qed.

Lemma component_reschedule (u v : World) :
  component u = component v ->
  component (world (reschedule u)) = component (rescheduled v)
  /\ requested (effects (reschedule u)) = [rafCounter v + 1].
Proof.
  intros H.
  assert (Hraf : rafCounter u = rafCounter v)
    by exact (f_equal rafCounter H).
  change (world (reschedule u)) with (rescheduled u).
  rewrite !component_rescheduled, H.
  split; [ reflexivity |]. cbn. now rewrite Hraf.
Qed.

(** What one animation-frame callback does to the world, the clock
    apart, and the one callback it requests. *)
Lemma detectFaces_facts (fr : FrameInput) (w : World) :
  component (world (callback fr w))
  = component (rescheduled (match frame_faces w fr with
                            | Some (det, faces) => count_faces det faces w
                            | None => w
                            end))
  /\ requested (effects (callback fr w)) = [rafCounter w + 1].
Proof.
  unfold callback, detectFaces, frame_faces.
  rewrite bind_world, bind_effects, requested_app.
  cbn [gets world effects result fst snd requested omap app].
  destruct (video fr) as [v |], (canvas fr) as [cv |],
    (faceDetector w) as [det |];
    try (apply component_reschedule; reflexivity).
  destruct (readyState v =? 4); cbn [negb andb];
    [| apply component_reschedule; reflexivity ].
  rewrite bind_world, bind_effects, requested_app.
  cbn [emit world effects result fst snd requested omap app].
  destruct (context2d cv); cbn [negb];
    [| apply component_reschedule; reflexivity ].
  rewrite bind_world, bind_effects, requested_app.
  destruct (detect_and_draw_facts cv det fr w) as [Hw He].
  fold frame_body. rewrite He. cbn [app].
  destruct (detector_result det fr) as [faces |]; cbn [fmap option_fmap option_map].
  - destruct (component_reschedule _ _ Hw) as [Hw' He'].
    rewrite Hw', He'. now rewrite rafCounter_count_faces.
  - apply component_reschedule; exact Hw.
Qed.

(** The counters after one callback. *)
Lemma detectFaces_counters (fr : FrameInput) (w : World) :
  let w' := world (callback fr w) in
  let counted := match frame_faces w fr with
                 | Some (det, faces) => count_faces det faces w
                 | None => w
                 end in
  faceCount w' = faceCount counted
  /\ detectionStats w' = detectionStats counted
  /\ faceDetector w' = faceDetector w
  /\ animationFrameRef w' = rafCounter w + 1.
Proof.
  cbn zeta.
  destruct (detectFaces_facts fr w) as [H _].
  repeat split.
  - exact (f_equal faceCount H).
  - exact (f_equal detectionStats H).
  - apply (f_equal faceDetector) in H.
    change (faceDetector (world (callback fr w)) = faceDetector
              match frame_faces w fr with
              | Some (det, faces) => count_faces det faces w
              | None => w
              end) in H.
    rewrite H. destruct (frame_faces w fr) as [[det faces] |]; [| reflexivity ].
    unfold count_faces. cbn zeta. now destruct (0 <? _).
  - apply (f_equal animationFrameRef) in H.
    change (animationFrameRef (world (callback fr w)) = rafCounter
              match frame_faces w fr with
              | Some (det, faces) => count_faces det faces w
              | None => w
              end + 1) in H.
    rewrite H. destruct (frame_faces w fr) as [[det faces] |]; [| reflexivity ].
    now rewrite rafCounter_count_faces.
Qed.

(** C9. Every invocation of [detectFaces] requests exactly one
    animation-frame callback, whatever it finds (a ref, the detector or
    the video data missing, no 2D context, a detection that throws, a
    detection that succeeds), and stores its handle in the ref. *)
Theorem detectFaces_reschedules_once (fr : FrameInput) (w : World) :
  length (requested (effects (callback fr w))) = 1%nat
  /\ requested (effects (callback fr w))
     = [animationFrameRef (world (callback fr w))].
Proof.
  destruct (detectFaces_facts fr w) as [_ He].
  destruct (detectFaces_counters fr w) as (_ & _ & _ & Href).
  rewrite He, Href. split; reflexivity.
Qed.

(** C8. A frame on which the detector reports no face sets [faceCount]
    to 0 and leaves [detectionStats] as it was: neither
    [totalDetections] nor [avgConfidence] changes. *)
Theorem no_face_leaves_stats (fr : FrameInput) (w : World)
  (det : FaceDetection) :
  frame_faces w fr = Some (det, []) ->
  faceCount (world (callback fr w)) = 0
  /\ detectionStats (world (callback fr w)) = detectionStats w.
Proof.
  intros H.
  destruct (detectFaces_counters fr w) as (Hc & Hs & _).
  rewrite H in Hc, Hs. split; assumption.
Qed.

Lemma sum_confidences_map (det : FaceDetection) (faces : list Face) (acc : Q) :
  sum_confidences det faces acc
  = fold_left Qplus (map (confidence_of det) faces) acc.
Proof.
  unfold sum_confidences. revert acc.
  induction faces as [| f faces IH]; intros acc; [ reflexivity | apply IH ].
Qed.

(** The statistics after a frame with faces. *)
Lemma detectFaces_stats (fr : FrameInput) (w : World)
  (det : FaceDetection) (faces : list Face) :
  frame_faces w fr = Some (det, faces) ->
  faces <> [] ->
  detectionStats (world (callback fr w))
  = {| totalDetections :=
         totalDetections (detectionStats w) + Z.of_nat (length faces);
       avgConfidence := mean (map (confidence_of det) faces) |}.
Proof.
  intros H Hne.
  destruct (detectFaces_counters fr w) as (_ & Hs & _).
  rewrite H in Hs. rewrite Hs. unfold count_faces. cbn zeta.
  destruct (Z.ltb_spec 0 (Z.of_nat (length faces))) as [_ | Hle].
  - cbn. unfold mean. now rewrite sum_confidences_map, length_map.
  - destruct faces; [ congruence | cbn in Hle; lia ].
Qed.

Lemma run_app (evs evs' : list Event) (w : World) :
  world (replay (evs ++ evs') w) = world (replay evs' (world (replay evs w))).
Proof.
  revert w; induction evs as [| ev evs IH]; intros w; [ reflexivity |].
  cbn [app]. unfold replay in *. cbn [run].
  rewrite !bind_world. apply IH.
Qed.

Lemma run_snoc (evs : list Event) (ev : Event) (w : World) :
  world (replay (evs ++ [ev]) w)
  = world (step Math_sin Math_PI measureText ev (world (replay evs w))).
Proof.
  rewrite run_app. unfold replay at 1. cbn [run].
  now rewrite bind_world.
Qed.

(** C1, as the code has it. After any history, a frame with at least one
    face leaves in [avgConfidence] the mean of the confidence values of
    that frame alone (and [totalDetections] grows by the number of its
    faces): the average is per frame, it does not run over the
    detections counted before. *)
Theorem avgConfidence_is_last_frame_mean
  (evs : list Event) (fr : FrameInput) (w0 : World)
  (det : FaceDetection) (faces : list Face) :
  frame_faces (world (replay evs w0)) fr = Some (det, faces) ->
  faces <> [] ->
  let before := detectionStats (world (replay evs w0)) in
  let after := detectionStats (world (replay (evs ++ [AnimationFrame fr]) w0)) in
  (avgConfidence after == mean (map (confidence_of det) faces))%Q
  /\ totalDetections after = totalDetections before + Z.of_nat (length faces).
Proof.
  intros H Hne before after. subst before after.
  rewrite run_snoc. cbn [step]. fold callback.
  rewrite (detectFaces_stats _ _ _ _ H Hne). cbn.
  split; reflexivity.
Qed.

(** C5. The counters never go below zero: if they are non-negative when
    a run starts (they are 0 on mount), then after any sequence of
    animation frames and resets [faceCount] and [totalDetections] are
    non-negative; an animation frame never lowers [totalDetections], and
    a reset sets it to 0. *)
Theorem counters_nonnegative (evs : list Event) (w0 : World) :
  0 <= faceCount w0 ->
  0 <= totalDetections (detectionStats w0) ->
  let w := world (replay evs w0) in
  0 <= faceCount w
  /\ 0 <= totalDetections (detectionStats w)
  /\ (forall fr, totalDetections (detectionStats w)
                 <= totalDetections (detectionStats (world (callback fr w))))
  /\ totalDetections (detectionStats (world (resetStats w))) = 0.
Proof.
  intros Hc Ht w.
  assert (Hstep : forall fr u,
            0 <= faceCount u -> 0 <= totalDetections (detectionStats u) ->
            0 <= faceCount (world (callback fr u))
            /\ totalDetections (detectionStats u)
               <= totalDetections (detectionStats (world (callback fr u)))).
  { intros fr u Hcu Htu.
    destruct (detectFaces_counters fr u) as (Hfc & Hds & _).
    rewrite Hfc, Hds.
    destruct (frame_faces u fr) as [[det faces] |]; [| lia ].
    unfold count_faces. cbn zeta.
    destruct (Z.ltb_spec 0 (Z.of_nat (length faces))); cbn; lia. }
  assert (Hinv : 0 <= faceCount w /\ 0 <= totalDetections (detectionStats w)).
  { subst w. revert w0 Hc Ht.
    induction evs as [| ev evs IH]; intros w0 Hc Ht; [ split; assumption |].
    unfold replay in *. cbn [run]. rewrite bind_world.
    apply IH; destruct ev as [fr |]; cbn [step].
    - apply (Hstep fr w0 Hc Ht).
    - exact Hc.
    - destruct (Hstep fr w0 Hc Ht) as [_ Hle].
      exact (Z.le_trans _ _ _ Ht Hle).
    - cbn. lia. }
  destruct Hinv as [Hcw Htw].
  repeat split; try assumption.
  intros fr. apply (Hstep fr w Hcw Htw).
Qed.


(** The confidences collected by [accumulated_confidences] are the
    detections [totalDetections] counts. *)
Lemma accumulated_counts (evs : list Event) (w : World) (acc : list Q) :
  totalDetections (detectionStats w) = Z.of_nat (length acc) ->
  totalDetections (detectionStats (world (replay evs w)))
  = Z.of_nat (length (accumulated evs w acc)).
Proof.
  revert w acc; induction evs as [| [fr |] evs IH]; intros w acc H.
  - exact H.
  - unfold replay, accumulated in *.
    cbn [run step accumulated_confidences]. rewrite bind_world.
    apply IH. fold callback.
    destruct (detectFaces_counters fr w) as (_ & Hs & _). rewrite Hs.
    unfold frame_confidences.
    destruct (frame_faces w fr) as [[det faces] |].
    + rewrite length_app, length_map, Nat2Z.inj_add, <- H.
      unfold count_faces. cbn zeta.
      destruct (Z.ltb_spec 0 (Z.of_nat (length faces))); cbn; lia.
    + now rewrite app_nil_r.
  - unfold replay, accumulated in *.
    cbn [run step accumulated_confidences]. rewrite bind_world.
    apply IH. reflexivity.
Qed.

(** C6, as the code has it. The drawing routines read [Date.now()]: two
    invocations with the same arguments that read the same clock value
    produce the same sequence of canvas operations, whatever else
    differs between the two worlds. *)
Theorem drawing_depends_on_arguments_and_clock (w1 w2 : World) :
  clock w1 0%nat = clock w2 0%nat ->
  (forall x y width height label confidence,
     effects (box x y width height label confidence w1)
     = effects (box x y width height label confidence w2))
  /\ (forall points, effects (dots points w1) = effects (dots points w2)).
Proof.
  intros H; split; intros.
  - now apply drawAdvancedBoundingBox_same_reading.
  - now apply drawFaceLandmarks_same_reading.
Qed.

End DrawingFacts.

(** ** Teardown *)

(** What the cleanup of the camera effect does, in every world: it
    cancels the animation frame whose handle the ref holds, if any, and
    nothing else; no track of the camera stream is stopped. *)
Lemma cleanup_spec (w : World) :
  cleanup w
  = (tt, w,
     if Js.truthy (animationFrameRef w)
     then [CancelAnimationFrame (animationFrameRef w)] else [])
  /\ stopped_tracks (effects (cleanup w)) = [].
Proof.
  unfold cleanup, bind, gets.
  destruct (Js.truthy (animationFrameRef w)); split; reflexivity.
Qed.

(** C3, on the code. Teardown with the camera stream 7 attached and the
    loop running: the pending animation frame is cancelled, but no track
    of the stream is stopped and the stream stays attached to the video
    element. *)
Example cleanup_keeps_camera_stream :
  effects (cleanup Sample.streaming) = [CancelAnimationFrame 1]
  /\ stopped_tracks (effects (cleanup Sample.streaming)) = []
  /\ srcObject (world (cleanup Sample.streaming)) = Some 7%nat.
Proof. repeat split. Qed.

(** ** Closed instances *)

Lemma same_drawing_lookup (l m : list CanvasOp) (i : nat) (o p : CanvasOp) :
  same_drawing l m = true ->
  l !! i = Some o -> m !! i = Some p ->
  CanvasOp_eqb o p = true.
Proof.
  revert m i; induction l as [| a l IH]; intros [| b m] i H Hl Hm;
    try discriminate.
  cbn in H. apply andb_true_iff in H as [Hab Hrest].
  destruct i as [| i]; cbn in Hl, Hm.
  - now injection Hl as <-; injection Hm as <-.
  - exact (IH m i Hrest Hl Hm).
Qed.

(** C6, counterexample. Whatever [Math.sin] and [measureText] are, the
    bounding box of the same face drawn at clock readings 0 ms and
    250 ms differs: the scanning line is drawn at [y = 0] the first time
    and at [y = 50] the second. *)
Lemma drawing_is_not_deterministic :
  ~ exists (Math_sin : Q -> Q) (measureText : string -> string -> Q),
      forall x y width height label confidence w1 w2,
        same_drawing
          (drawn (effects (drawAdvancedBoundingBox Math_sin measureText
                             x y width height label confidence w1)))
          (drawn (effects (drawAdvancedBoundingBox Math_sin measureText
                             x y width height label confidence w2)))
        = true.
Proof.
  intros (Math_sin & measureText & H).
  specialize (H 0%Q 0%Q 100%Q 100%Q "Face 1" 1%Q
                (initialWorld (Sample.clock_from 0))
                (initialWorld (Sample.clock_from 250))).
  eapply (same_drawing_lookup _ _ 28) in H; [| reflexivity | reflexivity ].
  vm_compute in H. discriminate H.
Qed.

Lemma drawing_depends_on_arguments_and_clock_witness :
  clock (initialWorld (Sample.clock_from 0)) 0%nat = clock Sample.mounted 0%nat
  /\ effects (drawAdvancedBoundingBox Sample.sin Sample.measure
                0 0 100 100 "Face 1" 1 (initialWorld (Sample.clock_from 0)))
     = effects (drawAdvancedBoundingBox Sample.sin Sample.measure
                  0 0 100 100 "Face 1" 1 Sample.mounted).
Proof.
  split; [ reflexivity |].
  apply (drawing_depends_on_arguments_and_clock Sample.sin Sample.PI
           Sample.measure (initialWorld (Sample.clock_from 0)) Sample.mounted);
    reflexivity.
Defined.

(** C1, counterexample. After one face of confidence 1 and then one of
    confidence 1/2, [totalDetections] is 2 and the mean of the two
    confidence values is 3/4, but [avgConfidence] is 1/2. *)
Lemma avgConfidence_is_not_running_mean :
  ~ (avgConfidence
       (detectionStats
          (world (run Sample.sin Sample.PI Sample.measure
                    Sample.two_frames Sample.mounted)))
     == mean (accumulated_confidences Sample.sin Sample.PI Sample.measure
                Sample.two_frames Sample.mounted []))%Q.
Proof. vm_compute. intros H. discriminate H. Qed.

Example two_frames_statistics :
  detectionStats
    (world (run Sample.sin Sample.PI Sample.measure
              Sample.two_frames Sample.mounted))
  = {| totalDetections := 2; avgConfidence := 1 # 2 |}
  /\ accumulated_confidences Sample.sin Sample.PI Sample.measure
       Sample.two_frames Sample.mounted []
     = [1%Q; (1 # 2)%Q].
Proof. split; vm_compute; reflexivity. Qed.

Lemma avgConfidence_is_last_frame_mean_witness :
  frame_faces
    (world (run Sample.sin Sample.PI Sample.measure
              [AnimationFrame (Sample.frame [Sample.face 1])] Sample.mounted))
    (Sample.frame [Sample.face (1 # 2)])
  = Some (tensorflow_detector, [Sample.face (1 # 2)])
  /\ (avgConfidence
        (detectionStats
           (world (run Sample.sin Sample.PI Sample.measure
                     ([AnimationFrame (Sample.frame [Sample.face 1])]
                      ++ [AnimationFrame (Sample.frame [Sample.face (1 # 2)])])
                     Sample.mounted)))
      == mean (map (confidence_of tensorflow_detector) [Sample.face (1 # 2)]))%Q.
Proof.
  split; [ reflexivity |].
  apply (avgConfidence_is_last_frame_mean Sample.sin Sample.PI Sample.measure
           [AnimationFrame (Sample.frame [Sample.face 1])]
           (Sample.frame [Sample.face (1 # 2)]) Sample.mounted
           tensorflow_detector [Sample.face (1 # 2)]);
    [ reflexivity | discriminate ].
Defined.

Lemma counters_nonnegative_witness :
  0 <= faceCount Sample.mounted
  /\ 0 <= totalDetections (detectionStats Sample.mounted)
  /\ 0 <= totalDetections
            (detectionStats
               (world (run Sample.sin Sample.PI Sample.measure
                         (Sample.two_frames ++ [ResetStats]) Sample.mounted))).
Proof.
  split; [ vm_compute; discriminate |].
  split; [ vm_compute; discriminate |].
  apply (counters_nonnegative Sample.sin Sample.PI Sample.measure
           (Sample.two_frames ++ [ResetStats]) Sample.mounted);
    vm_compute; discriminate.
Defined.

(** After a face of confidence 1/2, a frame without faces: the face
    count drops to 0 and the average shown is still 1/2. *)
Lemma no_face_leaves_stats_witness :
  let w := world (detectFaces Sample.sin Sample.PI Sample.measure
                    (Sample.frame [Sample.face (1 # 2)]) Sample.mounted) in
  let w' := world (detectFaces Sample.sin Sample.PI Sample.measure
                     (Sample.frame []) w) in
  frame_faces w (Sample.frame []) = Some (tensorflow_detector, [])
  /\ avgConfidence (detectionStats w) = (1 # 2)%Q
  /\ faceCount w' = 0
  /\ detectionStats w' = detectionStats w.
Proof.
  split; [ reflexivity |].
  split; [ vm_compute; reflexivity |].
  apply (no_face_leaves_stats Sample.sin Sample.PI Sample.measure
           (Sample.frame []) _ tensorflow_detector).
  reflexivity.
Defined.

Lemma recording_stops_into_webm_download_witness :
  let w1 := world (startRecording true Started Sample.mounted) in
  let w2 := world (deliver_all Sample.toISOString 0
                     (map DataAvailable [Sample.chunk [26; 69]; Sample.chunk []])
                     w1) in
  let w3 := world (stopRecording w2) in
  let w4 := world (deliver_all Sample.toISOString 0
                     (map DataAvailable [Sample.chunk [223; 163]]) w3) in
  let blob := {| blob_data := [26; 69; 223; 163]; blob_type := "video/webm" |} in
  mediaRecorder w1 = Some 0%nat
  /\ exists stem,
       let a := {| href := blob; download := stem +:+ ".webm" |} in
       effects (onstop Sample.toISOString 0 w4)
       = [CreateObjectURL blob; AppendChild a; AnchorClick a; RemoveChild a;
          RevokeObjectURL blob].
Proof.
  split; [ vm_compute; reflexivity |].
  apply (recording_stops_into_webm_download Sample.toISOString Sample.mounted
           0%nat [Sample.chunk [26; 69]; Sample.chunk []]
           [Sample.chunk [223; 163]]).
  vm_compute; reflexivity.
Defined.

Example sample_download_name :
  download_name (Sample.toISOString 0) = "face-tracking-2024-01-02T03-04-05.webm".
Proof. reflexivity. Qed.

Lemma stopRecording_spec_witness :
  stopRecording Sample.mounted = (tt, Sample.mounted, [])
  /\ effects (stopRecording (world (startRecording true Started Sample.mounted)))
     = [RecorderStop 0].
Proof.
  split.
  - apply (proj1 (stopRecording_spec Sample.mounted)). reflexivity.
  - apply (proj2 (proj2 (stopRecording_spec
                           (world (startRecording true Started Sample.mounted))))
             0%nat recording);
      [ vm_compute; reflexivity | vm_compute; reflexivity | discriminate ].
Defined.

Lemma failures_surface_as_error_witness :
  initializeCamera true true GetUserMediaRejects Sample.mounted
  = (tt, setError camera_message Sample.mounted,
     [GetUserMedia; ConsoleError camera_log])
  /\ world (initializeFaceDetection ModelLoadFails ConstructorThrows
              (initialWorld (Sample.clock_from 0)))
     = setError no_detector_message
         (setIsLoading false (initialWorld (Sample.clock_from 0))).
Proof.
  split.
  - exact (proj1 (proj1 (failures_surface_as_error Sample.mounted)
                    true true)).
  - apply (proj1 (proj2 (failures_surface_as_error
                           (initialWorld (Sample.clock_from 0))))
             ModelLoadFails ConstructorThrows); discriminate.
Defined.

(** * More of the component *)

(** ** The name of the downloaded file *)

Lemma list_ascii_of_string_app (a b : string) :
  String.list_ascii_of_string (a +:+ b)
  = String.list_ascii_of_string a ++ String.list_ascii_of_string b.
Proof.
  induction a as [| ch a IH]; [ reflexivity |].
  change (ch :: String.list_ascii_of_string (a +:+ b)
          = ch :: (String.list_ascii_of_string a ++ String.list_ascii_of_string b)).
  now rewrite IH.
Qed.

Lemma replace_all_removes (c d : Ascii.ascii) (s : string) :
  c <> d -> ~ In c (String.list_ascii_of_string (Js.replace_all c d s)).
Proof.
  intros Hcd. induction s as [| a s IH]; [ intros [] |].
  cbn [Js.replace_all String.list_ascii_of_string].
  intros [Heq | Hin]; [| exact (IH Hin) ].
  destruct (Ascii.eqb_spec a c) as [-> | Hne]; congruence.
Qed.

Lemma replace_all_length (c d : Ascii.ascii) (s : string) :
  String.length (Js.replace_all c d s) = String.length s.
Proof. induction s as [| a s IH]; [ reflexivity | cbn; now rewrite IH ]. Qed.

Lemma substring_length_le (n m : nat) (s : string) :
  (String.length (String.substring n m s) <= m)%nat.
Proof.
  revert n m; induction s as [| a s IH]; intros [| n] [| m]; cbn;
    try lia.
  - specialize (IH 0%nat m). lia.
  - apply IH.
  - apply IH.
Qed.

Lemma string_length_app (a b : string) :
  String.length (a +:+ b) = (String.length a + String.length b)%nat.
Proof.
  induction a as [| ch a IH]; [ reflexivity |].
  change (S (String.length (a +:+ b))
          = S (String.length a + String.length b)).
  now rewrite IH.
Qed.

(** X1: whatever [toISOString] returns, the name of the downloaded file
    holds no colon (every [:] of the time stamp is replaced) and is at
    most 38 characters long: the 14 of [face-tracking-], at most 19 of
    the time stamp, and the 5 of [.webm]. *)
Theorem download_name_has_no_colon (iso : string) :
  ~ In ":"%char (String.list_ascii_of_string (download_name iso))
  /\ (String.length (download_name iso) <= 38)%nat.
Proof.
  unfold download_name. split.
  - rewrite !list_ascii_of_string_app, !in_app_iff.
    intros [H | [H | H]].
    + cbn in H. repeat (destruct H as [H | H]; [ discriminate H |]).
      contradiction.
    + revert H. now apply replace_all_removes.
    + cbn in H. repeat (destruct H as [H | H]; [ discriminate H |]).
      contradiction.
  - rewrite !string_length_app, replace_all_length.
    pose proof (substring_length_le 0 19 iso) as Hle.
    unfold Js.slice0. cbn [String.length]. lia.
Qed.

(** ** The scanning line *)

Lemma mod1_range (x : Q) : (0 <= x -> 0 <= Js.mod1 x /\ Js.mod1 x < 1)%Q.
Proof.
  intros Hx. unfold Js.mod1, Js.trunc.
  rewrite (proj2 (Qle_bool_iff 0 x) Hx).
  pose proof (Qfloor_le x) as Hlo.
  pose proof (Qlt_floor x) as Hhi.
  rewrite inject_Z_plus in Hhi.
  change (inject_Z 1) with 1%Q in Hhi.
  split; lra.
Qed.

(** X2: the scanning line stays inside the bounding box. For a clock
    that is not before the epoch and a box of non-negative height, the
    line is drawn at or below the top edge and above the bottom edge
    (at the top edge when the height is 0). *)
Theorem scanY_within_box (y height time : Q) :
  (0 <= time)%Q -> (0 <= height)%Q ->
  (y <= scanY y height time)%Q
  /\ (scanY y height time <= y + height)%Q
  /\ ((0 < height)%Q -> (scanY y height time < y + height)%Q).
Proof.
  intros Ht Hh. unfold scanY.
  destruct (mod1_range (time * 2)) as [Hlo Hhi]; [ lra |].
  set (m := Js.mod1 (time * 2)) in *.
  assert (H0 : (0 <= height * m)%Q) by now apply Qmult_le_0_compat.
  assert (H1 : (height * m <= height * 1)%Q).
  { rewrite !(Qmult_comm height). apply Qmult_le_compat_r; lra. }
  repeat split; [ lra | lra |].
  intros Hpos.
  assert (H2 : (height * m < height * 1)%Q) by now apply Qmult_lt_l.
  lra.
Qed.

(** ** What a call of [detectFaces] leaves alone *)

Lemma confined_draw (ops : list CanvasOp) :
  forallb frame_effect (map Draw ops) = true.
Proof. induction ops as [| op ops IH]; [ reflexivity | exact IH ]. Qed.

Lemma labels_app (es fs : list Effect) :
  labels (es ++ fs) = labels es ++ labels fs.
Proof. apply omap_app. Qed.

Lemma labels_landmarks (ops : FaceLandmark -> list CanvasOp)
  (points : list FaceLandmark) :
  (forall p, labels (map Draw (ops p)) = []) ->
  labels (map Draw (concat (map ops points))) = [].
Proof.
  intros H. induction points as [| p points IH]; [ reflexivity |].
  cbn [map concat]. now rewrite map_app, labels_app, H, IH.
Qed.

Section FrameFacts.

Variable Math_sin : Q -> Q.
Variable Math_PI : Q.
Variable measureText : string -> string -> Q.

Let box := drawAdvancedBoundingBox Math_sin measureText.
Let dots := drawFaceLandmarks Math_sin Math_PI.
Let face_body := draw_face Math_sin Math_PI measureText.
Let frame_body := detect_and_draw Math_sin Math_PI measureText.
Let callback := detectFaces Math_sin Math_PI measureText.
Let replay := run Math_sin Math_PI measureText.

Lemma box_effects (x y width height : Q) (label : string) (confidence : Q)
  (w : World) :
  (exists ops, effects (box x y width height label confidence w)
               = map Draw ops)
  /\ length (labels (effects (box x y width height label confidence w)))
     = 1%nat.
Proof.
  unfold box, drawAdvancedBoundingBox.
  rewrite bind_effects. cbn zeta. unfold draw_all at 1.
  cbn [effects snd Date_now app].
  split; [ eexists; reflexivity | reflexivity ].
Qed.

Lemma dots_effects (points : list FaceLandmark) (w : World) :
  (exists ops, effects (dots points w) = map Draw ops)
  /\ labels (effects (dots points w)) = [].
Proof.
  unfold dots, drawFaceLandmarks, forEach.
  rewrite bind_effects, bind_effects, bind_effects.
  cbn zeta. rewrite forEach_draw_only.
  cbn [effects result world fst snd Date_now draw_all app].
  split.
  - rewrite <- !map_app. eexists; reflexivity.
  - rewrite !labels_app, labels_landmarks; reflexivity.
Qed.

Lemma draw_face_effects (det : FaceDetection) (index : nat) (face : Face)
  (total : Q) (w : World) :
  (exists ops, effects (face_body det index face total w) = map Draw ops)
  /\ (type det = tensorflow \/ is_Some (boundingBox face) ->
      length (labels (effects (face_body det index face total w))) = 1%nat).
Proof.
  unfold face_body, draw_face.
  rewrite bind_effects. cbn [ret effects snd]. rewrite app_nil_r.
  destruct (type det).
  - destruct (default (0%Q, 0%Q) (topLeft face)) as [x y].
    destruct (default (0%Q, 0%Q) (bottomRight face)) as [x2 y2].
    rewrite bind_effects, labels_app, length_app.
    match goal with
    | |- context [drawAdvancedBoundingBox _ _ ?a ?b ?c ?d ?l ?p w] =>
        destruct (box_effects a b c d l p w) as [[ops Hops] Hlab];
        fold (box a b c d l p w); rewrite Hops in *; rewrite Hlab
    end.
    destruct (landmarks face) as [points |].
    + match goal with
      | |- context [drawFaceLandmarks _ _ points ?u] =>
          destruct (dots_effects points u) as [[ops' Hops'] Hlab'];
          fold (dots points u); rewrite Hops' in *; rewrite Hlab'
      end.
      split; [ rewrite <- map_app; eexists; reflexivity | reflexivity ].
    + cbn [ret effects snd]. rewrite app_nil_r.
      split; [ eexists; reflexivity | reflexivity ].
  - destruct (boundingBox face) as [bb |].
    + destruct (box_effects (rect_x bb) (rect_y bb) (rect_width bb)
                  (rect_height bb)
                  ("Face " +:+ Js.string_of_Z (Z.of_nat index + 1))
                  (confidence_of det face) w) as [[ops Hops] Hlab].
      fold box. rewrite Hlab. split; [ exists ops; exact Hops | reflexivity ].
    + split; [ exists []; reflexivity |].
      intros [H | [bb H]]; discriminate H.
Qed.

Lemma forEach_faces_effects (det : FaceDetection) (faces : list Face)
  (index : nat) (total : Q) (w : World) :
  (exists ops, effects (forEach_from index faces (face_body det) total w)
               = map Draw ops)
  /\ (type det = tensorflow
      \/ Forall (fun face => is_Some (boundingBox face)) faces ->
      length (labels (effects (forEach_from index faces (face_body det)
                                 total w)))
      = length faces).
Proof.
  revert index total w.
  induction faces as [| face faces IH]; intros index total w.
  - split; [ exists []; reflexivity | reflexivity ].
  - cbn [forEach_from]. rewrite bind_effects, labels_app, length_app.
    destruct (draw_face_effects det index face total w) as [[ops Hops] Hlab].
    destruct (IH (S index) (result (face_body det index face total w))
                (world (face_body det index face total w)))
      as [[ops' Hops'] Hlab'].
    rewrite Hops, Hops'. split.
    + rewrite <- map_app. eexists; reflexivity.
    + intros H. rewrite <- Hops, <- Hops'.
      rewrite Hlab, Hlab'; [ reflexivity | |].
      * destruct H as [H | H]; [ now left | right ].
        now apply Forall_cons in H as [_ H].
      * destruct H as [H | H]; [ now left | right ].
        now apply Forall_cons in H as [H _].
Qed.

Lemma detectFaces_confined (fr : FrameInput) (w : World) :
  forallb frame_effect (effects (callback fr w)) = true.
Proof.
  unfold callback, detectFaces.
  rewrite bind_effects. cbn [gets effects result world fst snd app].
  destruct (video fr) as [v |], (canvas fr) as [cv |],
    (faceDetector w) as [det |]; try reflexivity.
  destruct (readyState v =? 4); cbn [negb]; [| reflexivity ].
  rewrite bind_effects. cbn [emit effects result world fst snd app forallb frame_effect andb].
  destruct (context2d cv); cbn [negb]; [| reflexivity ].
  rewrite bind_effects, forallb_app. apply andb_true_iff; split;
    [| reflexivity ].
  unfold detect_and_draw.
  rewrite bind_effects, forallb_app. apply andb_true_iff; split;
    [ reflexivity |].
  rewrite bind_effects, forallb_app. apply andb_true_iff; split.
  { destruct (type det), (has_detectFaces det), (has_detect det);
      reflexivity. }
  match goal with
  | |- context [detector_result det fr] =>
      destruct (detector_result det fr) as [faces |]; [| reflexivity ]
  end.
  rewrite bind_effects. cbn [modify effects snd app].
  rewrite bind_effects, forallb_app. apply andb_true_iff; split.
  - unfold forEach.
    match goal with
    | |- context [forEach_from 0 faces _ ?t ?u] =>
        destruct (forEach_faces_effects det faces 0 t u) as [[ops Hops] _]
    end.
    fold face_body. rewrite Hops. apply confined_draw.
  - now destruct (0 <? Z.of_nat (length faces)).
Qed.

Lemma count_faces_rest (det : FaceDetection) (faces : list Face) (w : World) :
  isLoading (count_faces det faces w) = isLoading w
  /\ error (count_faces det faces w) = error w
  /\ faceDetector (count_faces det faces w) = faceDetector w
  /\ isRecording (count_faces det faces w) = isRecording w
  /\ mediaRecorder (count_faces det faces w) = mediaRecorder w
  /\ srcObject (count_faces det faces w) = srcObject w
  /\ recorders (count_faces det faces w) = recorders w.
Proof.
  unfold count_faces. cbn zeta.
  destruct (0 <? Z.of_nat (length faces)); repeat split.
Qed.

Lemma detectFaces_rest (fr : FrameInput) (w : World) :
  let w' := world (callback fr w) in
  isLoading w' = isLoading w
  /\ error w' = error w
  /\ faceDetector w' = faceDetector w
  /\ isRecording w' = isRecording w
  /\ mediaRecorder w' = mediaRecorder w
  /\ srcObject w' = srcObject w
  /\ recorders w' = recorders w.
Proof.
  cbn zeta.
  destruct (detectFaces_facts Math_sin Math_PI measureText fr w) as [H _].
  fold callback in H.
  set (counted := match frame_faces w fr with
                  | Some (det, faces) => count_faces det faces w
                  | None => w
                  end) in H.
  assert (Hrest : isLoading counted = isLoading w
                  /\ error counted = error w
                  /\ faceDetector counted = faceDetector w
                  /\ isRecording counted = isRecording w
                  /\ mediaRecorder counted = mediaRecorder w
                  /\ srcObject counted = srcObject w
                  /\ recorders counted = recorders w).
  { subst counted. destruct (frame_faces w fr) as [[det faces] |];
      [ apply count_faces_rest | repeat split ]. }
  destruct Hrest as (H1 & H2 & H3 & H4 & H5 & H6 & H7).
  rewrite <- H1, <- H2, <- H3, <- H4, <- H5, <- H6, <- H7.
  repeat split.
  - exact (f_equal isLoading H).
  - exact (f_equal error H).
  - exact (f_equal faceDetector H).
  - exact (f_equal isRecording H).
  - exact (f_equal mediaRecorder H).
  - exact (f_equal srcObject H).
  - exact (f_equal recorders H).
Qed.

(** X4: teardown right after a call of [detectFaces] cancels exactly the
    animation frame that call requested (handles count up from a
    non-negative counter, so the handle stored in the ref is never 0). *)
Theorem cleanup_cancels_the_requested_frame (fr : FrameInput) (w : World) :
  0 <= rafCounter w ->
  effects (cleanup (world (callback fr w)))
  = map CancelAnimationFrame (requested (effects (callback fr w))).
Proof.
  intros Hraf.
  destruct (detectFaces_facts Math_sin Math_PI measureText fr w) as [_ He].
  destruct (detectFaces_counters Math_sin Math_PI measureText fr w)
    as (_ & _ & _ & Href).
  fold callback in He, Href. rewrite He.
  rewrite (proj1 (cleanup_spec _)). cbn [effects snd].
  rewrite Href. unfold Js.truthy. cbn [map].
  destruct (Z.eqb_spec (rafCounter w + 1) 0) as [H0 |]; [ lia | reflexivity ].
Qed.

(** X5: a call of [detectFaces] changes the face count, the statistics,
    the animation-frame handle and the clock, and nothing else of the
    component: the loading flag, the error message, the detector, the
    recording state, the attached camera stream and the recorders are as
    before. *)
Theorem detectFaces_leaves_the_rest (fr : FrameInput) (w : World) :
  let w' := world (callback fr w) in
  isLoading w' = isLoading w
  /\ error w' = error w
  /\ faceDetector w' = faceDetector w
  /\ isRecording w' = isRecording w
  /\ mediaRecorder w' = mediaRecorder w
  /\ srcObject w' = srcObject w
  /\ recorders w' = recorders w.
Proof. exact (detectFaces_rest fr w). Qed.

(** X6: a call of [detectFaces] touches the canvas, the detector, the
    console and [requestAnimationFrame], and nothing else: it never asks
    for the camera, never creates, starts or stops a recorder and never
    triggers a download. *)
Theorem detectFaces_effects_confined (fr : FrameInput) (w : World) :
  forallb frame_effect (effects (callback fr w)) = true.
Proof. exact (detectFaces_confined fr w). Qed.

(** The faces of the native detector all carry a bounding box. *)
Lemma frame_faces_boxes (fr : FrameInput) (w : World)
  (det : FaceDetection) (faces : list Face) :
  frame_faces w fr = Some (det, faces) ->
  faceDetector w = Some det
  /\ detector_result det fr = Some faces
  /\ (type det = tensorflow
      \/ Forall (fun face => is_Some (boundingBox face)) faces).
Proof.
  unfold frame_faces.
  destruct (video fr) as [v |]; [| discriminate ].
  destruct (canvas fr) as [cv |]; [| discriminate ].
  destruct (faceDetector w) as [d |]; [| discriminate ].
  destruct ((readyState v =? 4) && context2d cv); [| discriminate ].
  destruct (detector_result d fr) as [fs |] eqn:Hres; [| discriminate ].
  cbn. intros [= -> ->]. repeat split; [ exact Hres |].
  unfold detector_result in Hres.
  destruct (type det); [ now left | right ].
  destruct (has_detect det).
  - destruct (detect fr) as [found |]; [| discriminate ].
    cbn in Hres. injection Hres as <-.
    induction found as [| f found IH]; constructor; [ now eexists | exact IH ].
  - injection Hres as <-. constructor.
Qed.

(** X7: on a frame that completes detection, one label is written on
    the canvas per detected face, and that number is the face count the
    page shows. *)
Theorem one_label_per_face (fr : FrameInput) (w : World)
  (det : FaceDetection) (faces : list Face) :
  frame_faces w fr = Some (det, faces) ->
  length (labels (effects (callback fr w))) = length faces
  /\ faceCount (world (callback fr w)) = Z.of_nat (length faces).
Proof.
  intros H.
  destruct (detectFaces_counters Math_sin Math_PI measureText fr w)
    as (Hcount & _).
  fold callback in Hcount. rewrite H in Hcount.
  split.
  2:{ rewrite Hcount. unfold count_faces. cbn zeta.
      now destruct (0 <? Z.of_nat (length faces)). }
  destruct (frame_faces_boxes fr w det faces H) as (Hdet & Hres & Hbox).
  unfold frame_faces in H.
  unfold callback, detectFaces.
  rewrite bind_effects. cbn [gets effects result world fst snd app].
  rewrite Hdet in *.
  destruct (video fr) as [v |]; [| discriminate ].
  destruct (canvas fr) as [cv |]; [| discriminate ].
  destruct (readyState v =? 4); [| discriminate ].
  destruct (context2d cv); [| discriminate ]. cbn [negb].
  rewrite bind_effects. cbn [emit effects result world fst snd app].
  rewrite bind_effects.
  change (GetContext2d :: ?l) with ([GetContext2d] ++ l).
  rewrite !labels_app, !length_app.
  unfold detect_and_draw.
  rewrite bind_effects, labels_app, length_app.
  rewrite bind_effects, labels_app, length_app.
  rewrite Hres.
  rewrite bind_effects. cbn [modify effects snd app].
  rewrite bind_effects, labels_app, length_app.
  unfold forEach.
  match goal with
  | |- context [forEach_from 0 faces _ ?t ?u] =>
      destruct (forEach_faces_effects det faces 0 t u) as [_ Hlab]
  end.
  fold face_body. rewrite (Hlab Hbox).
  assert (Hcall : forall u,
            labels (effects
              (match type det, has_detectFaces det, has_detect det with
               | tensorflow, true, _ => emit EstimateFaces
               | native, _, true => emit NativeDetect
               | _, _, _ => ret tt
               end u)) = []).
  { intros u. destruct (type det), (has_detectFaces det), (has_detect det);
      reflexivity. }
  rewrite Hcall.
  destruct (0 <? Z.of_nat (length faces)); cbn; lia.
Qed.

(** X8: after a frame that completes detection, the page shows the
    number of faces of that frame, and the indicator over the video
    reads "1 face", "n faces", or is hidden when there is none. *)
Theorem page_after_frame (fr : FrameInput) (w : World)
  (det : FaceDetection) (faces : list Face) :
  isLoading w = false ->
  frame_faces w fr = Some (det, faces) ->
  exists s,
    render (world (callback fr w)) = Page s
    /\ faces_card s = Z.of_nat (length faces)
    /\ face_indicator s
       = match faces with
         | [] => None
         | [_] => Some "1 face"
         | _ => Some (Js.string_of_Z (Z.of_nat (length faces)) +:+ " faces")
         end.
Proof.
  intros Hload H.
  destruct (detectFaces_counters Math_sin Math_PI measureText fr w)
    as (Hcount & _).
  destruct (detectFaces_rest fr w) as (Hl & _).
  fold callback in Hcount. rewrite H in Hcount.
  assert (Hn : faceCount (world (callback fr w)) = Z.of_nat (length faces)).
  { rewrite Hcount. unfold count_faces. cbn zeta.
    now destruct (0 <? Z.of_nat (length faces)). }
  unfold render. rewrite Hl, Hload. eexists. split; [ reflexivity |].
  cbn [faces_card face_indicator]. rewrite Hn. split; [ reflexivity |].
  destruct faces as [| f [| g faces]]; [ reflexivity | reflexivity |].
  destruct (Z.ltb_spec 0 (Z.of_nat (length (f :: g :: faces)))) as [_ | Hle];
    [| cbn in Hle; lia ].
  unfold indicator_text.
  destruct (Z.eqb_spec (Z.of_nat (length (f :: g :: faces))) 1) as [H1 |];
    [ cbn in H1; lia |].
  reflexivity.
Qed.

End FrameFacts.

(** ** Bounds on what is shown *)

Lemma drawn_of_draws (ops : list CanvasOp) : drawn (map Draw ops) = ops.
Proof. induction ops as [| op ops IH]; [ reflexivity | cbn; now f_equal ]. Qed.

Lemma round_percent (a : Q) :
  (0 <= a)%Q -> (a <= 1)%Q -> 0 <= Js.round (a * 100) <= 100.
Proof.
  intros Hlo Hhi. unfold Js.round.
  assert (H0 : (inject_Z 0 <= a * 100 + (1 # 2))%Q)
    by (change (inject_Z 0) with 0%Q; lra).
  assert (H1 : (a * 100 + (1 # 2) <= 201 # 2)%Q) by lra.
  apply Qfloor_resp_le in H0, H1.
  rewrite Qfloor_Z in H0.
  change (Qfloor (201 # 2)) with 100 in H1. lia.
Qed.

Section FrameBounds.

Variable Math_sin : Q -> Q.
Variable Math_PI : Q.
Variable measureText : string -> string -> Q.

Let box := drawAdvancedBoundingBox Math_sin measureText.
Let dots := drawFaceLandmarks Math_sin Math_PI.
Let callback := detectFaces Math_sin Math_PI measureText.
Let replay := run Math_sin Math_PI measureText.

Lemma sum_confidences_bounds (det : FaceDetection) (faces : list Face)
  (acc : Q) :
  Forall (fun face => (0 <= confidence_of det face
                       /\ confidence_of det face <= 1)%Q) faces ->
  (acc <= sum_confidences det faces acc
   /\ sum_confidences det faces acc
      <= acc + inject_Z (Z.of_nat (length faces)))%Q.
Proof.
  unfold sum_confidences.
  revert acc; induction faces as [| f faces IH]; intros acc H.
  - cbn [fold_left length]. change (inject_Z (Z.of_nat 0)) with 0%Q.
    split; lra.
  - apply Forall_cons in H as [[Hlo Hhi] H].
    cbn [fold_left length].
    destruct (IH (acc + confidence_of det f)%Q H) as [IHlo IHhi].
    rewrite Nat2Z.inj_succ, <- Z.add_1_r, inject_Z_plus.
    change (inject_Z 1) with 1%Q.
    split; lra.
Qed.

Lemma frame_confidences_in_range (fr : FrameInput) (w : World)
  (det : FaceDetection) (faces : list Face) :
  probabilities_in_range fr ->
  frame_faces w fr = Some (det, faces) ->
  Forall (fun face => (0 <= confidence_of det face
                       /\ confidence_of det face <= 1)%Q) faces.
Proof.
  intros Hp H.
  destruct (frame_faces_boxes fr w det faces H) as (_ & Hres & _).
  apply Forall_forall. intros face Hin. apply list_elem_of_In in Hin.
  unfold confidence_of. unfold detector_result in Hres.
  destruct (type det); [| split; lra ].
  destruct (probability face) as [[p rest] |] eqn:Hprob; [| split; lra ].
  destruct (has_detectFaces det).
  - now apply (Hp faces face p rest).
  - injection Hres as <-. destruct Hin.
Qed.

Lemma avgConfidence_step (fr : FrameInput) (w : World) :
  probabilities_in_range fr ->
  (0 <= avgConfidence (detectionStats w)
   /\ avgConfidence (detectionStats w) <= 1)%Q ->
  (0 <= avgConfidence (detectionStats (world (callback fr w)))
   /\ avgConfidence (detectionStats (world (callback fr w))) <= 1)%Q.
Proof.
  intros Hp Hw.
  destruct (detectFaces_counters Math_sin Math_PI measureText fr w)
    as (_ & Hs & _).
  fold callback in Hs. rewrite Hs.
  destruct (frame_faces w fr) as [[det faces] |] eqn:Hff; [| exact Hw ].
  unfold count_faces. cbn zeta.
  destruct (Z.ltb_spec 0 (Z.of_nat (length faces))) as [Hpos | _];
    [| exact Hw ].
  cbn [detectionStats setDetectionStats avgConfidence].
  destruct (sum_confidences_bounds det faces 0
              (frame_confidences_in_range fr w det faces Hp Hff))
    as [Hlo Hhi].
  assert (Hn : (0 < inject_Z (Z.of_nat (length faces)))%Q).
  { change 0%Q with (inject_Z 0). now rewrite <- Zlt_Qlt. }
  split.
  - apply Qle_shift_div_l; [ exact Hn | lra ].
  - apply Qle_shift_div_r; [ exact Hn | lra ].
Qed.

(** X9: on detector results whose [probability] arrays, where present,
    are non-empty (BlazeFace reports one element; the type [Face] above
    holds no empty array) with a first entry between 0 and 1, the
    average confidence stays between 0 and 1 over any sequence of
    animation frames and resets, so the percentage on the page is
    between 0 and 100. An empty [probability] array, which the source's
    [number[]] allows, is outside this statement. *)
Theorem confidence_percentage_in_range (evs : list Event) (w0 : World) :
  Forall (fun ev => match ev with
                    | AnimationFrame fr => probabilities_in_range fr
                    | ResetStats => True
                    end) evs ->
  (0 <= avgConfidence (detectionStats w0))%Q ->
  (avgConfidence (detectionStats w0) <= 1)%Q ->
  let a := avgConfidence (detectionStats (world (replay evs w0))) in
  (0 <= a)%Q /\ (a <= 1)%Q /\ 0 <= Js.round (a * 100) <= 100.
Proof.
  intros Hevs Hlo Hhi a.
  assert (Ha : (0 <= a /\ a <= 1)%Q).
  { subst a. revert w0 Hlo Hhi.
    induction Hevs as [| ev evs Hev _ IH]; intros w0 Hlo Hhi;
      [ now split |].
    unfold replay in *. cbn [run]. rewrite bind_world.
    destruct ev as [fr |]; cbn [step].
    - destruct (avgConfidence_step fr w0 Hev (conj Hlo Hhi)) as [H1 H2].
      now apply IH.
    - apply IH; cbn; lra. }
  destruct Ha as [H1 H2].
  repeat split; try assumption; now apply round_percent.
Qed.

(** X10: with a sine between -1 and 1, every colour the two drawing
    routines set has an opacity between 0 and 1: the pulse never drives
    a stroke or fill style out of range. *)
Theorem drawing_opacity_in_range
  (x y width height : Q) (label : string) (confidence : Q)
  (points : list FaceLandmark) (w : World) :
  (forall t, (-1 <= Math_sin t /\ Math_sin t <= 1)%Q) ->
  Forall styles_in_range
    (drawn (effects (box x y width height label confidence w)))
  /\ Forall styles_in_range (drawn (effects (dots points w))).
Proof.
  intros Hsin. split.
  - unfold box, drawAdvancedBoundingBox.
    rewrite bind_effects. cbn zeta. unfold draw_all at 1.
    cbn [effects result world fst snd Date_now app].
    rewrite drawn_of_draws.
    match goal with
    | |- context [Math_sin ?t] => destruct (Hsin t) as [Hlo Hhi];
                                  set (s := Math_sin t) in *
    end.
    unfold confidenceRgba.
    repeat (apply Forall_cons; split; [| ]); try apply Forall_nil;
      try exact I;
      cbn [styles_in_range opaque_in_range];
      repeat match goal with
             | |- context [if ?b then _ else _] => destruct b
             end;
      cbn [styles_in_range opaque_in_range]; split; lra.
  - unfold dots, drawFaceLandmarks, forEach.
    rewrite !bind_effects. cbn zeta. rewrite forEach_draw_only.
    cbn [effects result world fst snd Date_now draw_all app].
    rewrite <- !map_app, drawn_of_draws.
    match goal with
    | |- context [Math_sin ?t] => destruct (Hsin t) as [Hlo Hhi];
                                  set (s := Math_sin t) in *
    end.
    apply Forall_app; split; [| apply Forall_app; split ].
    + repeat (apply Forall_cons; split; [| ]); try apply Forall_nil;
        try exact I.
      cbn [styles_in_range opaque_in_range]. split; lra.
    + induction points as [| p points IH]; [ constructor |].
      cbn [map concat]. apply Forall_app; split; [| exact IH ].
      repeat constructor.
    + repeat constructor.
Qed.

(** X11: the [loadeddata] listener starts the loop, whatever the video's
    readiness and whatever refs and detector it finds: its call of
    [detectFaces] requests exactly one animation frame and stores the
    handle. While the video is not at [readyState] 4 that request is all
    it does. When that first call gets to draw, it clears and paints a
    canvas sized after the video, with 1280 x 720 standing in for a zero
    width or height, so never a canvas of size zero. *)
Theorem loadeddata_starts_the_loop
  (videoWidth videoHeight : Q) (fr : FrameInput) (w : World) :
  let W := number_or videoWidth 1280 in
  let H := number_or videoHeight 720 in
  let r := on_loadeddata Math_sin Math_PI measureText
             videoWidth videoHeight fr w in
  requested (effects r) = [rafCounter w + 1]
  /\ animationFrameRef (world r) = rafCounter w + 1
  /\ (forall v, video fr = Some v -> readyState v <> 4 ->
        effects r = [RequestAnimationFrame (rafCounter w + 1)])
  /\ (forall v cv det,
        video fr = Some v -> readyState v = 4 ->
        canvas fr = Some cv -> context2d cv = true ->
        faceDetector w = Some det ->
        exists rest,
          effects r = GetContext2d :: Draw (ClearRect 0 0 W H)
                      :: Draw (DrawImage 0 0 W H) :: rest)
  /\ ~ (W == 0)%Q /\ ~ (H == 0)%Q.
Proof.
  intros W H r.
  split; [| split; [| split; [| split ]]].
  - subst r. unfold on_loadeddata.
    now destruct (detectFaces_facts Math_sin Math_PI measureText
                    {| video := video fr;
                       canvas := resized videoWidth videoHeight <$> canvas fr;
                       estimateFaces := estimateFaces fr;
                       detect := detect fr |} w) as [_ He].
  - subst r. unfold on_loadeddata.
    now destruct (detectFaces_counters Math_sin Math_PI measureText
                    {| video := video fr;
                       canvas := resized videoWidth videoHeight <$> canvas fr;
                       estimateFaces := estimateFaces fr;
                       detect := detect fr |} w) as (_ & _ & _ & Href).
  - intros v Hv Hready.
    subst r. unfold on_loadeddata, detectFaces.
    rewrite bind_effects. cbn [gets effects result world fst snd app].
    cbn [video canvas]. rewrite Hv.
    destruct (resized videoWidth videoHeight <$> canvas fr) as [cv |];
      [| reflexivity ].
    destruct (faceDetector w) as [det |]; [| reflexivity ].
    destruct (Z.eqb_spec (readyState v) 4) as [E |]; [ contradiction |].
    reflexivity.
  - intros v cv det Hv Hready Hcv Hctx Hdet.
    subst r. unfold on_loadeddata, detectFaces.
    rewrite bind_effects. cbn [gets effects result world fst snd app].
    cbn [video canvas]. rewrite Hv, Hcv, Hdet, Hready.
    cbn [fmap option_fmap option_map Z.eqb Pos.eqb negb].
    rewrite bind_effects. cbn [emit effects result world fst snd app].
    cbn [resized context2d]. rewrite Hctx. cbn [negb].
    rewrite bind_effects. unfold detect_and_draw at 1.
    rewrite bind_effects.
    cbn [draw_all effects result world fst snd app map canvas_width
           canvas_height resized].
    eexists. reflexivity.
  - subst W H. unfold number_or. split.
    + destruct (Qeq_bool videoWidth 0) eqn:E;
        [ intros Hz; discriminate Hz | now apply Qeq_bool_neq ].
    + destruct (Qeq_bool videoHeight 0) eqn:E;
        [ intros Hz; discriminate Hz | now apply Qeq_bool_neq ].
Qed.

End FrameBounds.

(** ** Recording: round trip and size of the download *)

Lemma blob_size_new_Blob (cs : list Blob) (ty : string) :
  blob_size (new_Blob cs ty) = total_size cs.
Proof.
  unfold blob_size, new_Blob. cbn [blob_data].
  induction cs as [| c cs IH]; [ reflexivity |].
  cbn [map concat total_size foldr].
  rewrite length_app, Nat2Z.inj_add, IH. reflexivity.
Qed.

Lemma total_size_filter (datas : list Blob) :
  total_size (filter (fun d => 0 < blob_size d) datas) = total_size datas.
Proof.
  induction datas as [| d datas IH]; [ reflexivity |].
  rewrite filter_cons.
  change (total_size (d :: datas)) with (blob_size d + total_size datas).
  destruct (decide (0 < blob_size d)) as [Hpos | Hneg].
  - change (blob_size d
            + total_size (filter (fun d => 0 < blob_size d) datas)
            = blob_size d + total_size datas).
    now rewrite IH.
  - rewrite IH. unfold blob_size in *. lia.
Qed.

(** X12: no byte is lost or added on the way to the download. After a
    recording in which the chunks [before] arrive, [stopRecording] is
    called, the chunks [after] arrive and the recorder fires [stop], one
    anchor is clicked, and the blob behind it has the type [video/webm]
    and as many bytes as all the chunks together: 0 bytes when no data
    arrived at all. *)
Theorem download_size_is_the_chunks_size
  (toISOString : Z -> string) (w : World) (before after : list Blob) :
  let id := fresh (dom (recorders w)) in
  let w1 := world (startRecording true Started w) in
  let w2 := world (deliver_all toISOString id (map DataAvailable before) w1) in
  let w3 := world (stopRecording w2) in
  let w4 := world (deliver_all toISOString id (map DataAvailable after) w3) in
  exists a,
    clicked (effects (onstop toISOString id w4)) = [a]
    /\ blob_type (href a) = "video/webm"
    /\ blob_size (href a) = total_size (before ++ after).
Proof.
  intros id w1 w2 w3 w4.
  destruct (startRecording_started w) as (_ & _ & Hrec & _).
  fold id w1 in Hrec.
  assert (Hchunks : chunks <$> recorders w4 !! id
                    = Some (filter (fun d => 0 < blob_size d)
                              (before ++ after))).
  { subst w4 w3 w2.
    rewrite chunks_deliver_data, chunks_stopRecording, chunks_deliver_data.
    rewrite Hrec; cbn. now rewrite filter_app. }
  rewrite (onstop_effects _ _ _ _ Hchunks). cbn zeta.
  eexists. split; [ reflexivity |]. cbn [href].
  split; [ reflexivity |].
  now rewrite blob_size_new_Blob, total_size_filter.
Qed.

(** X13: starting a recording and stopping it brings the component back
    to where it was, but for the new, now inactive recorder left in the
    store: [stop()] is called on the recorder just created,
    [mediaRecorder] is null and [isRecording] false again, and stopping
    once more does nothing. *)
Theorem start_then_stop (w : World) :
  let id := fresh (dom (recorders w)) in
  let w1 := world (startRecording true Started w) in
  let w2 := world (stopRecording w1) in
  effects (stopRecording w1) = [RecorderStop id]
  /\ w2 = setIsRecording false
            (setMediaRecorder None
               (setRecorders
                  (<[id := {| rec_state := inactive; chunks := [] |}]>
                     (recorders w)) w))
  /\ stopRecording w2 = (tt, w2, []).
Proof.
  intros id w1 w2.
  destruct (startRecording_started w) as (Hmr & _ & Hrec & _).
  fold id w1 in Hmr, Hrec.
  assert (Hstop : stopRecording w1
                  = (tt,
                     setIsRecording false
                       (setMediaRecorder None (set_rec_state id inactive w1)),
                     [RecorderStop id])).
  { unfold stopRecording, bind, gets. rewrite Hmr.
    unfold recorder_state. rewrite Hrec. reflexivity. }
  subst w2. rewrite Hstop. cbn [world effects fst snd].
  split; [ reflexivity |]. split; [| reflexivity ].
  - subst w1. unfold set_rec_state. cbn.
    unfold setIsRecording, setMediaRecorder, setRecorders. cbn.
    f_equal. fold id.
    apply map_eq. intros j.
    destruct (decide (j = id)) as [-> | Hne].
    + now rewrite !lookup_alter_eq, !lookup_insert_eq.
    + now rewrite !lookup_alter_ne, !lookup_insert_ne by congruence.
Qed.

(** ** The component over any sequence of actions *)

Lemma confined_no_construction (es : list Effect) :
  forallb frame_effect es = true -> recorder_constructions es = [].
Proof.
  induction es as [| e es IH]; [ reflexivity |].
  cbn [forallb]. intros H. apply andb_true_iff in H as [He Hes].
  destruct e; try discriminate He; exact (IH Hes).
Qed.

Lemma recorder_constructions_app (es fs : list Effect) :
  recorder_constructions (es ++ fs)
  = recorder_constructions es ++ recorder_constructions fs.
Proof. apply omap_app. Qed.

Lemma recorder_state_push_chunk (id id' : nat) (data : Blob) (w : World) :
  recorder_state id' (push_chunk id data w) = recorder_state id' w.
Proof.
  unfold recorder_state, push_chunk. cbn.
  destruct (decide (id = id')) as [-> | Hne].
  - rewrite lookup_alter_eq. now destruct (recorders w !! id').
  - now rewrite lookup_alter_ne.
Qed.

Lemma recorder_state_set (id id' : nat) (s : RecordingState) (w : World) :
  recorder_state id' (set_rec_state id s w)
  = if decide (id = id')
    then (fun _ => s) <$> recorder_state id' w
    else recorder_state id' w.
Proof.
  unfold recorder_state, set_rec_state. cbn.
  destruct (decide (id = id')) as [-> | Hne].
  - rewrite lookup_alter_eq. now destruct (recorders w !! id').
  - now rewrite lookup_alter_ne.
Qed.

Lemma fresh_recorder_absent (w : World) :
  recorder_state (fresh (dom (recorders w))) w = None.
Proof.
  unfold recorder_state.
  assert (H : recorders w !! fresh (dom (recorders w)) = None)
    by (apply not_elem_of_dom, is_fresh).
  now rewrite H.
Qed.

Section Reachability.

Variable Math_sin : Q -> Q.
Variable Math_PI : Q.
Variable measureText : string -> string -> Q.
Variable toISOString : Z -> string.

Let act := perform Math_sin Math_PI measureText toISOString.
Let acts_run := perform_all Math_sin Math_PI measureText toISOString.

Lemma perform_all_app (acts acts' : list Action) (w : World) :
  world (acts_run (acts ++ acts') w)
  = world (acts_run acts' (world (acts_run acts w))).
Proof.
  revert w; induction acts as [| a acts IH]; intros w; [ reflexivity |].
  cbn [app]. unfold acts_run in *. cbn [perform_all].
  rewrite !bind_world. apply IH.
Qed.

(** The three messages are the only values the error string is ever
    given. *)
Lemma perform_error (a : Action) (w : World) :
  error (world (act a w)) = error w
  \/ error (world (act a w)) = no_detector_message
  \/ error (world (act a w)) = camera_message
  \/ error (world (act a w)) = recording_message.
Proof.
  destruct a as [tf nt | v c o | | vw vh fr | fr | c o | | id ev];
    unfold act; cbn [perform].
  - destruct tf, nt; cbn; tauto.
  - unfold cameraEffect, initializeCamera, bind, gets. cbn.
    destruct (negb (isLoading w) && bool_decide (is_Some (faceDetector w)));
      [| now left ].
    destruct (v && c && negb (isLoading w)
              && bool_decide (is_Some (faceDetector w)));
      [| now left ].
    destruct o; cbn; tauto.
  - rewrite (proj1 (cleanup_spec w)). now left.
  - left. unfold on_loadeddata.
    now destruct (detectFaces_rest Math_sin Math_PI measureText
                    {| video := video fr;
                       canvas := resized vw vh <$> canvas fr;
                       estimateFaces := estimateFaces fr;
                       detect := detect fr |} w) as (_ & H & _).
  - left.
    now destruct (detectFaces_rest Math_sin Math_PI measureText fr w)
      as (_ & H & _).
  - unfold bind, gets, render.
    destruct (isLoading w); [ now left |].
    cbn [record_button].
    destruct (isRecording w); cbn [negb].
    + left. unfold stopRecording, bind, gets.
      destruct (mediaRecorder w) as [id |]; [| reflexivity ].
      now destruct (recorder_state id w) as [[| |] |].
    + destruct (String.eqb (error w) ""); cbn [negb]; [| now left ].
      destruct c; [| now left ].
      destruct o; cbn; tauto.
  - left. unfold bind, gets, render. now destruct (isLoading w).
  - left. destruct ev as [data |]; cbn [deliver].
    + unfold ondataavailable. now destruct (0 <? blob_size data).
    + unfold onstop, bind, gets. cbn.
      now destruct (recorders w !! id).
Qed.

(** X14: an error message is never cleared. Once the error string is
    set, no sequence of effects, frames, clicks and recorder events
    makes it empty again: the banner stays until the page is reloaded. *)
Theorem error_is_never_cleared (acts : list Action) (w : World) :
  error w <> "" ->
  error (world (acts_run acts w)) <> "".
Proof.
  revert w; induction acts as [| a acts IH]; intros w H; [ exact H |].
  unfold acts_run in *. cbn [perform_all]. rewrite bind_world.
  apply IH.
  destruct (perform_error a w) as [E | [E | [E | E]]]; fold act;
    rewrite E; [ exact H | discriminate | discriminate | discriminate ].
Qed.

Lemma perform_no_construction (a : Action) (w : World) :
  error w <> "" ->
  recorder_constructions (effects (act a w)) = [].
Proof.
  intros Herr.
  destruct a as [tf nt | v c o | | vw vh fr | fr | c o | | id ev];
    unfold act; cbn [perform].
  - destruct tf, nt; reflexivity.
  - unfold cameraEffect, initializeCamera, bind, gets. cbn.
    destruct (negb (isLoading w) && bool_decide (is_Some (faceDetector w)));
      [| reflexivity ].
    destruct (v && c && negb (isLoading w)
              && bool_decide (is_Some (faceDetector w)));
      [| reflexivity ].
    destruct o; reflexivity.
  - rewrite (proj1 (cleanup_spec w)). cbn [effects snd].
    now destruct (Js.truthy (animationFrameRef w)).
  - apply confined_no_construction. unfold on_loadeddata.
    apply detectFaces_confined.
  - apply confined_no_construction, detectFaces_confined.
  - unfold bind, gets, render.
    destruct (isLoading w); [ reflexivity |].
    cbn [record_button].
    destruct (isRecording w); cbn [negb].
    + unfold stopRecording, bind, gets.
      destruct (mediaRecorder w) as [id |]; [| reflexivity ].
      now destruct (recorder_state id w) as [[| |] |].
    + destruct (String.eqb_spec (error w) "") as [E |]; [ congruence |].
      reflexivity.
  - unfold bind, gets, render. now destruct (isLoading w).
  - destruct ev as [data |]; cbn [deliver].
    + unfold ondataavailable. now destruct (0 <? blob_size data).
    + unfold onstop, bind, gets. cbn.
      now destruct (recorders w !! id).
Qed.

(** X15: after any failure no recording can be started. While the error
    string is set, whatever happens next (clicks on the record button
    included), [new MediaRecorder] is never called. *)
Theorem no_recording_after_an_error (acts : list Action) (w : World) :
  error w <> "" ->
  recorder_constructions (effects (acts_run acts w)) = [].
Proof.
  revert w; induction acts as [| a acts IH]; intros w H; [ reflexivity |].
  unfold acts_run in *. cbn [perform_all].
  rewrite bind_effects, recorder_constructions_app.
  fold act. rewrite (perform_no_construction a w H).
  apply IH.
  destruct (perform_error a w) as [E | [E | [E | E]]]; fold act;
    rewrite E; [ exact H | discriminate | discriminate | discriminate ].
Qed.

Lemma consistent_transfer (w w' : World) :
  isRecording w' = isRecording w ->
  mediaRecorder w' = mediaRecorder w ->
  (forall id, recorder_state id w' = recorder_state id w) ->
  recording_consistent w -> recording_consistent w'.
Proof.
  intros Hr Hm Hs (H1 & H2 & H3). unfold recording_consistent.
  rewrite Hr, Hm. split; [ exact H1 |]. split.
  - intros id E. rewrite Hs. now apply H2.
  - intros id s E. rewrite Hs in E. now apply H3.
Qed.

Lemma perform_keeps_recording (a : Action) (w : World) :
  (forall c o, a <> ClickRecord c o) ->
  isRecording (world (act a w)) = isRecording w
  /\ mediaRecorder (world (act a w)) = mediaRecorder w
  /\ (forall id, recorder_state id (world (act a w)) = recorder_state id w).
Proof.
  intros Hclick.
  destruct a as [tf nt | v c o | | vw vh fr | fr | c o | | id ev];
    unfold act; cbn [perform].
  - destruct tf, nt; repeat split.
  - unfold cameraEffect, initializeCamera, bind, gets. cbn.
    destruct (negb (isLoading w) && bool_decide (is_Some (faceDetector w)));
      [| repeat split ].
    destruct (v && c && negb (isLoading w)
              && bool_decide (is_Some (faceDetector w)));
      [| repeat split ].
    destruct o; repeat split.
  - rewrite (proj1 (cleanup_spec w)). repeat split.
  - unfold on_loadeddata.
    destruct (detectFaces_rest Math_sin Math_PI measureText
                {| video := video fr;
                   canvas := resized vw vh <$> canvas fr;
                   estimateFaces := estimateFaces fr;
                   detect := detect fr |} w)
      as (_ & _ & _ & Hr & Hm & _ & Hs).
    repeat split; try assumption.
    intros id. unfold recorder_state. now rewrite Hs.
  - destruct (detectFaces_rest Math_sin Math_PI measureText fr w)
      as (_ & _ & _ & Hr & Hm & _ & Hs).
    repeat split; try assumption.
    intros id. unfold recorder_state. now rewrite Hs.
  - now destruct (Hclick c o).
  - unfold bind, gets, render. destruct (isLoading w); repeat split.
  - destruct ev as [data |]; cbn [deliver].
    + unfold ondataavailable.
      destruct (0 <? blob_size data); [| repeat split ].
      repeat split. intros id'. apply recorder_state_push_chunk.
    + unfold onstop, bind, gets. cbn.
      destruct (recorders w !! id); repeat split.
Qed.

Lemma click_record_consistent (c : bool) (o : RecorderOutcome) (w : World) :
  recording_consistent w ->
  recording_consistent (world (act (ClickRecord c o) w)).
Proof.
  intros Hw. pose proof Hw as (H1 & H2 & H3).
  unfold act. cbn [perform]. unfold bind, gets, render.
  destruct (isLoading w); [ exact Hw |].
  cbn [record_button].
  destruct (isRecording w) eqn:Hrec; cbn [negb].
  - (* the stop button *)
    unfold stopRecording, bind, gets.
    destruct (mediaRecorder w) as [id |] eqn:Hmr; [| exact Hw ].
    destruct (recorder_state id w) as [s |] eqn:Hst;
      [| exact Hw ].
    assert (Hidle : recording_consistent
                      (setIsRecording false
                         (setMediaRecorder None
                            (set_rec_state id inactive w)))).
    { split; [ reflexivity |]. split; [ discriminate |].
      intros id' s' E Hact. exfalso.
      change (recorder_state id' (set_rec_state id inactive w) = Some s')
        in E.
      rewrite recorder_state_set in E.
      destruct (decide (id = id')) as [<- | Hne].
      - rewrite Hst in E. injection E as <-. now apply Hact.
      - specialize (H3 id' s' E Hact). congruence. }
    destruct s; [ exact Hw | exact Hidle | exact Hidle ].
  - (* the start button *)
    assert (Hnone : mediaRecorder w = None).
    { destruct (mediaRecorder w) as [id |]; [| reflexivity ].
      rewrite bool_decide_eq_true_2 in H1 by eauto. discriminate H1. }
    assert (Hquiet : forall id s, recorder_state id w = Some s ->
                                  s = inactive).
    { intros id s E. destruct s; [ reflexivity | |];
        (assert (Hm : mediaRecorder w = Some id)
          by (apply (H3 id _ E); discriminate); congruence). }
    destruct (String.eqb (error w) ""); cbn [negb];
      [| exact Hw ].
    destruct c; [| exact Hw ].
    pose proof (fresh_recorder_absent w) as Hfresh.
    set (id := fresh (dom (recorders w))) in *.
    assert (Hnew : forall x id',
              recorder_state id'
                (setRecorders
                   (<[id := {| rec_state := x; chunks := [] |}]>
                      (recorders w)) w)
              = if decide (id = id') then Some x else recorder_state id' w).
    { intros x id'. unfold recorder_state. cbn.
      destruct (decide (id = id')) as [<- | Hne].
      - now rewrite lookup_insert_eq.
      - now rewrite lookup_insert_ne. }
    destruct o; cbn; fold id.
    + exact Hw.
    + (* [start] throws: one more inactive recorder *)
      split; [ cbn; now rewrite Hrec, Hnone |].
      split; [ cbn; rewrite Hnone; discriminate |].
      intros id' s E Hact. exfalso. cbn in E.
      change (recorder_state id'
                (setRecorders
                   (<[id := {| rec_state := inactive; chunks := [] |}]>
                      (recorders w)) w) = Some s) in E.
      rewrite Hnew in E.
      destruct (decide (id = id')); [ injection E as <-; now apply Hact |].
      apply Hact. now apply (Hquiet id').
    + (* started: the new recorder is the one referenced *)
      assert (Hstate : forall id',
                recorder_state id'
                  (set_rec_state id recording
                     (setRecorders
                        (<[id := {| rec_state := inactive; chunks := [] |}]>
                           (recorders w)) w))
                = if decide (id = id') then Some recording
                  else recorder_state id' w).
      { intros id'. rewrite recorder_state_set, Hnew.
        now destruct (decide (id = id')). }
      split; [ reflexivity |]. split.
      * intros id' E. cbn in E. injection E as <-.
        change (is_Some (recorder_state id
                  (set_rec_state id recording
                     (setRecorders
                        (<[id := {| rec_state := inactive; chunks := [] |}]>
                           (recorders w)) w)))).
        rewrite Hstate. rewrite decide_True by reflexivity. eauto.
      * intros id' s E Hact. cbn.
        change (recorder_state id'
                  (set_rec_state id recording
                     (setRecorders
                        (<[id := {| rec_state := inactive; chunks := [] |}]>
                           (recorders w)) w)) = Some s) in E.
        rewrite Hstate in E.
        destruct (decide (id = id')) as [<- | Hne]; [ reflexivity |].
        exfalso. apply Hact. now apply (Hquiet id').
Qed.

Lemma reachable_consistent (acts : list Action) (w : World) :
  recording_consistent w ->
  recording_consistent (world (acts_run acts w)).
Proof.
  revert w; induction acts as [| a acts IH]; intros w H; [ exact H |].
  unfold acts_run in *. cbn [perform_all]. rewrite bind_world.
  apply IH. fold act.
  destruct a as [tf nt | v c o | | vw vh fr | fr | c o | | id ev];
    try (now apply click_record_consistent);
    match goal with
    | |- recording_consistent (world (act ?a w)) =>
        destruct (perform_keeps_recording a w) as (Hr & Hm & Hs);
        [ discriminate | now apply (consistent_transfer w) ]
    end.
Qed.

Lemma initial_consistent (clk : nat -> Z) :
  recording_consistent (initialWorld clk).
Proof.
  split; [ reflexivity |]. split; [ discriminate |].
  intros id s E. unfold recorder_state in E. cbn in E.
  rewrite lookup_empty in E. discriminate E.
Qed.

(** X16: the RECORDING indicator tells the truth about the reference.
    From mount on, whatever happens, [isRecording] is true exactly when
    [mediaRecorder] refers to a recorder, and that recorder exists. *)
Theorem isRecording_iff_recorder (acts : list Action) (clk : nat -> Z) :
  let w := world (acts_run acts (initialWorld clk)) in
  (isRecording w = true <-> is_Some (mediaRecorder w))
  /\ (forall id, mediaRecorder w = Some id -> is_Some (recorders w !! id)).
Proof.
  cbn zeta.
  destruct (reachable_consistent acts _ (initial_consistent clk))
    as (H1 & H2 & _).
  split.
  - rewrite H1. apply bool_decide_eq_true.
  - intros id E. specialize (H2 id E). unfold recorder_state in H2.
    destruct (recorders _ !! id); [ eauto | now destruct H2 ].
Qed.

(** X17: never two recordings at once. From mount on, whatever happens,
    a recorder that is recording or paused is the one [mediaRecorder]
    refers to, so at most one recorder is active at any time. *)
Theorem at_most_one_active_recorder (acts : list Action) (clk : nat -> Z)
  (id id' : nat) (r r' : Recorder) :
  let w := world (acts_run acts (initialWorld clk)) in
  recorders w !! id = Some r -> rec_state r <> inactive ->
  recorders w !! id' = Some r' -> rec_state r' <> inactive ->
  id = id' /\ mediaRecorder w = Some id.
Proof.
  cbn zeta. intros Hr Ha Hr' Ha'.
  destruct (reachable_consistent acts _ (initial_consistent clk))
    as (_ & _ & H3).
  assert (E : mediaRecorder (world (acts_run acts (initialWorld clk)))
              = Some id).
  { apply (H3 id (rec_state r)); [| exact Ha ].
    unfold recorder_state. now rewrite Hr. }
  assert (E' : mediaRecorder (world (acts_run acts (initialWorld clk)))
               = Some id').
  { apply (H3 id' (rec_state r')); [| exact Ha' ].
    unfold recorder_state. now rewrite Hr'. }
  split; [ congruence | exact E ].
Qed.

End Reachability.

(** ** What the page shows *)

(** X18: once the bootstrap has run, the spinner is gone in every outcome.
    The page shows zeroed statistics and the start button; when neither
    detector could be set up it shows the no-detector message and the
    start button is disabled, otherwise there is no banner and the
    button is enabled. *)
Theorem page_after_bootstrap (tf : TfOutcome) (nt : NativeOutcome)
  (clk : nat -> Z) :
  let failed := match tf, nt with
                | TfLoaded, _ | _, NativeConstructed => false
                | _, _ => true
                end in
  render (world (initializeFaceDetection tf nt (initialWorld clk)))
  = Page {| faces_card := 0; total_card := 0; confidence_card := "0%";
            error_banner :=
              if failed then Some no_detector_message else None;
            face_indicator := None;
            recording_indicator := false;
            record_button := StartButton failed |}.
Proof. destruct tf, nt; reflexivity. Qed.

(** X19: the camera is asked for only once a detector is there. Run after
    the bootstrap of a freshly mounted component, the camera effect
    calls [getUserMedia] if and only if one of the two detectors was set
    up (and both refs are set). *)
Theorem camera_requested_iff_detector (tf : TfOutcome) (nt : NativeOutcome)
  (o : CameraOutcome) (clk : nat -> Z) :
  In GetUserMedia
    (effects (cameraEffect true true o
                (world (initializeFaceDetection tf nt (initialWorld clk)))))
  <-> tf = TfLoaded \/ nt = NativeConstructed.
Proof.
  destruct tf, nt, o; cbn; split; intros H;
    first [ now left
          | now right
          | contradiction H
          | destruct H as [H | H]; discriminate H ].
Qed.

(** X20: a recording that cannot be started leaves the start button
    disabled. When [new MediaRecorder] or [recorder.start] throws, the
    page shows the recording message, the component is not recording,
    and a further click on the record button does nothing. *)
Theorem failed_recording_disables_start
  (Math_sin : Q -> Q) (Math_PI : Q) (measureText : string -> string -> Q)
  (toISOString : Z -> string)
  (o : RecorderOutcome) (w : World) (c : bool) (o' : RecorderOutcome) :
  o <> Started ->
  isLoading w = false -> isRecording w = false ->
  let w' := world (startRecording true o w) in
  (exists s, render w' = Page s
             /\ error_banner s = Some recording_message
             /\ recording_indicator s = false
             /\ record_button s = StartButton true)
  /\ perform Math_sin Math_PI measureText toISOString (ClickRecord c o') w'
     = (tt, w', []).
Proof.
  intros Ho Hload Hrec w'.
  assert (H : isLoading w' = false /\ isRecording w' = false
              /\ error w' = recording_message).
  { subst w'. destruct o; [ | | congruence ]; cbn; now repeat split. }
  destruct H as (Hl & Hr & He).
  split.
  - unfold render. rewrite Hl, Hr, He. eexists. now repeat split.
  - cbn [perform]. unfold bind, gets, render. rewrite Hl, Hr, He.
    reflexivity.
Qed.

(** ** Closed instances of the properties above *)

Lemma scanY_within_box_witness :
  (0 <= 1 # 8)%Q /\ (0 <= 100)%Q
  /\ (10 <= scanY 10 100 (1 # 8))%Q
  /\ (scanY 10 100 (1 # 8) < 10 + 100)%Q.
Proof.
  assert (Ht : (0 <= 1 # 8)%Q) by (vm_compute; discriminate).
  assert (Hh : (0 <= 100)%Q) by (vm_compute; discriminate).
  destruct (scanY_within_box 10 100 (1 # 8) Ht Hh) as (Hlo & _ & Hlt).
  split; [ exact Ht |]. split; [ exact Hh |]. split; [ exact Hlo |].
  apply Hlt. reflexivity.
Defined.

Lemma cleanup_cancels_the_requested_frame_witness :
  0 <= rafCounter Sample.mounted
  /\ effects (cleanup (world (detectFaces Sample.sin Sample.PI Sample.measure
                                (Sample.frame []) Sample.mounted)))
     = [CancelAnimationFrame 1].
Proof.
  assert (H : 0 <= rafCounter Sample.mounted) by (vm_compute; discriminate).
  split; [ exact H |].
  exact (cleanup_cancels_the_requested_frame Sample.sin Sample.PI
           Sample.measure (Sample.frame []) Sample.mounted H).
Defined.

Lemma one_label_per_face_witness :
  frame_faces Sample.mounted (Sample.frame [Sample.face 1; Sample.face (1 # 2)])
  = Some (tensorflow_detector, [Sample.face 1; Sample.face (1 # 2)])
  /\ length (labels (effects
               (detectFaces Sample.sin Sample.PI Sample.measure
                  (Sample.frame [Sample.face 1; Sample.face (1 # 2)])
                  Sample.mounted)))
     = 2%nat.
Proof.
  split; [ reflexivity |].
  apply (one_label_per_face Sample.sin Sample.PI Sample.measure
           (Sample.frame [Sample.face 1; Sample.face (1 # 2)]) Sample.mounted
           tensorflow_detector [Sample.face 1; Sample.face (1 # 2)]).
  reflexivity.
Defined.

Lemma page_after_frame_witness :
  exists s,
    render (world (detectFaces Sample.sin Sample.PI Sample.measure
                     (Sample.frame [Sample.face 1; Sample.face (1 # 2)])
                     Sample.mounted))
    = Page s
    /\ faces_card s = 2
    /\ face_indicator s = Some "2 faces".
Proof.
  apply (page_after_frame Sample.sin Sample.PI Sample.measure
           (Sample.frame [Sample.face 1; Sample.face (1 # 2)]) Sample.mounted
           tensorflow_detector [Sample.face 1; Sample.face (1 # 2)]);
    reflexivity.
Defined.

Lemma confidence_percentage_in_range_witness :
  0 <= Js.round
         (avgConfidence
            (detectionStats
               (world (run Sample.sin Sample.PI Sample.measure
                         Sample.two_frames Sample.mounted))) * 100) <= 100.
Proof.
  assert (Hface : forall p, (0 <= p)%Q -> (p <= 1)%Q ->
                  probabilities_in_range (Sample.frame [Sample.face p])).
  { intros p Hlo Hhi faces face q rest Hf Hin Hp.
    injection Hf as <-. destruct Hin as [<- | []].
    injection Hp as <- _. now split. }
  apply (confidence_percentage_in_range Sample.sin Sample.PI Sample.measure
           Sample.two_frames Sample.mounted).
  - constructor; [ apply Hface; vm_compute; discriminate |].
    constructor; [ apply Hface; vm_compute; discriminate |].
    constructor.
  - vm_compute; discriminate.
  - vm_compute; discriminate.
Defined.

Lemma drawing_opacity_in_range_witness :
  Forall styles_in_range
    (drawn (effects (drawAdvancedBoundingBox (fun _ => 0%Q) Sample.measure
                       0 0 100 100 "Face 1" 1 Sample.mounted))).
Proof.
  apply (drawing_opacity_in_range (fun _ => 0%Q) Sample.PI Sample.measure
           0 0 100 100 "Face 1" 1 [] Sample.mounted).
  intros t. split; vm_compute; discriminate.
Defined.

Lemma loadeddata_starts_the_loop_witness :
  requested
    (effects (on_loadeddata Sample.sin Sample.PI Sample.measure 0 480
                (Sample.frame []) Sample.mounted))
  = [1]
  /\ exists rest,
       effects (on_loadeddata Sample.sin Sample.PI Sample.measure 0 480
                  (Sample.frame []) Sample.mounted)
       = GetContext2d :: Draw (ClearRect 0 0 1280 480)
         :: Draw (DrawImage 0 0 1280 480) :: rest.
Proof.
  destruct (loadeddata_starts_the_loop Sample.sin Sample.PI Sample.measure
              0 480 (Sample.frame []) Sample.mounted)
    as (Hreq & _ & _ & Hdraw & _).
  split; [ exact Hreq |].
  exact (Hdraw Sample.ready_video Sample.hd_canvas tensorflow_detector
           eq_refl eq_refl eq_refl eq_refl eq_refl).
Defined.

Lemma error_is_never_cleared_witness :
  error (world (perform_all Sample.sin Sample.PI Sample.measure
                  Sample.toISOString
                  [CameraEffectRuns true true (Playing 7); ClickReset;
                   ClickRecord true Started]
                  (world (initializeCamera true true GetUserMediaRejects
                            Sample.mounted))))
  <> "".
Proof.
  apply (error_is_never_cleared Sample.sin Sample.PI Sample.measure
           Sample.toISOString).
  discriminate.
Defined.

Lemma no_recording_after_an_error_witness :
  recorder_constructions
    (effects (perform_all Sample.sin Sample.PI Sample.measure
                Sample.toISOString
                [ClickRecord true Started; ClickRecord true Started]
                (world (initializeCamera true true GetUserMediaRejects
                          Sample.mounted))))
  = [].
Proof.
  apply (no_recording_after_an_error Sample.sin Sample.PI Sample.measure
           Sample.toISOString).
  discriminate.
Defined.

Lemma at_most_one_active_recorder_witness :
  mediaRecorder
    (world (perform_all Sample.sin Sample.PI Sample.measure
              Sample.toISOString
              [MountEffect TfLoaded NoFaceDetector; ClickRecord true Started]
              (initialWorld (Sample.clock_from 0))))
  = Some 0%nat.
Proof.
  apply (at_most_one_active_recorder Sample.sin Sample.PI Sample.measure
           Sample.toISOString
           [MountEffect TfLoaded NoFaceDetector; ClickRecord true Started]
           (Sample.clock_from 0) 0%nat 0%nat
           {| rec_state := recording; chunks := [] |}
           {| rec_state := recording; chunks := [] |});
    first [ discriminate | vm_compute; reflexivity ].
Defined.

Lemma failed_recording_disables_start_witness :
  perform Sample.sin Sample.PI Sample.measure Sample.toISOString
    (ClickRecord true Started)
    (world (startRecording true MediaRecorderThrows Sample.mounted))
  = (tt, world (startRecording true MediaRecorderThrows Sample.mounted), []).
Proof.
  apply (failed_recording_disables_start Sample.sin Sample.PI Sample.measure
           Sample.toISOString MediaRecorderThrows Sample.mounted true Started);
    first [ discriminate | reflexivity ].
Defined.
